(** * nfl_sdk.base: URL construction, HTTP call wrapper, GitHub file
    listing and cross-year aggregation

    A shallow embedding of [src/nfl_sdk/base.py].  Python [str] values are
    modelled by [string], read as the UTF-8 byte sequence of the text;
    Python [dict]s whose iteration order is observable are association
    lists, JSON objects and table rows are [gmap]s.  Calls into the
    interpreter's libraries (pathlib, urllib.parse, requests, json, pandas)
    are modelled next to the functions that use them. *)

From Stdlib Require Import ZArith Ascii String DecimalString List Bool.
From Stdlib Require Import DecimalPos.
From stdpp Require Import base option list gmap strings.

Local Open Scope string_scope.
Local Open Scope list_scope.
Local Open Scope Z_scope.

(** ** Python strings *)

Module PyStr.

(** [s.startswith(p)] *)
Fixpoint startswith (p s : string) : bool :=
  match p, s with
  | EmptyString, _ => true
  | String _ _, EmptyString => false
  | String x p', String y s' => if decide (x = y) then startswith p' s' else false
  end.

(** [p in s] on two strings: substring search. *)
Fixpoint contains (p s : string) : bool :=
  startswith p s ||
  match s with
  | EmptyString => false
  | String _ s' => contains p s'
  end.

(** [c in s] for a one-character [c]. *)
Fixpoint has_char (c : ascii) (s : string) : bool :=
  match s with
  | EmptyString => false
  | String x s' => if decide (x = c) then true else has_char c s'
  end.

(** [s.endswith(c)] for a one-character [c]. *)
Fixpoint endswith_char (c : ascii) (s : string) : bool :=
  match s with
  | EmptyString => false
  | String x EmptyString => if decide (x = c) then true else false
  | String _ s' => endswith_char c s'
  end.

(** [s.lstrip(c)] for a one-character [c]. *)
Fixpoint lstrip (c : ascii) (s : string) : string :=
  match s with
  | EmptyString => EmptyString
  | String x s' => if decide (x = c) then lstrip c s' else s
  end.

(** [s.split(c)] for a one-character separator: never the empty list. *)
Fixpoint split (c : ascii) (s : string) : list string :=
  match s with
  | EmptyString => [EmptyString]
  | String x s' =>
      if decide (x = c) then EmptyString :: split c s'
      else match split c s' with
           | h :: t => String x h :: t
           | [] => [String x EmptyString]
           end
  end.

(** [s.split(c, 1)]: the text before the first [c], and the text after it
    when there is one. *)
Fixpoint split_once (c : ascii) (s : string) : string * option string :=
  match s with
  | EmptyString => (EmptyString, None)
  | String x s' =>
      if decide (x = c) then (EmptyString, Some s')
      else let '(h, t) := split_once c s' in (String x h, t)
  end.

(** [sep.join(ls)] *)
Definition join (sep : string) (ls : list string) : string :=
  String.concat sep ls.

(** [s.replace(a, b)] for one-character [a] and [b]. *)
Fixpoint replace_char (a b : ascii) (s : string) : string :=
  match s with
  | EmptyString => EmptyString
  | String x s' => String (if decide (x = a) then b else x) (replace_char a b s')
  end.

(** Truthiness of a string: [bool(s)]. *)
Definition truthy (s : string) : bool :=
  match s with EmptyString => false | _ => true end.

(** [str(n)] for an [int]. *)
Definition of_int (n : Z) : string := NilZero.string_of_int (Z.to_int n).

Definition code (c : ascii) : Z := Z.of_N (N_of_ascii c).

(** Whitespace as [int()] and [str.strip] see it, on the ASCII range. *)
Definition is_space (c : ascii) : bool :=
  let n := code c in
  ((9 <=? n) && (n <=? 13)) || ((28 <=? n) && (n <=? 32)).

Definition digit_val (c : ascii) : option Z :=
  let n := code c in
  if (48 <=? n) && (n <=? 57) then Some (n - 48) else None.

(** [int(s)] in base ten, as a scanner: optional surrounding whitespace,
    an optional sign, then digits that may be grouped by single
    underscores.  Digits and whitespace are the ASCII ones; any other byte
    is rejected. *)
Inductive int_state :=
| Lead
| Signed (neg : bool)
| Digits (neg : bool) (acc : Z)
| Under (neg : bool) (acc : Z)
| Trail (v : Z).

Definition signed (neg : bool) (acc : Z) : Z := if neg then - acc else acc.

Definition int_step (st : int_state) (c : ascii) : option int_state :=
  match st with
  | Lead =>
      if is_space c then Some Lead
      else if decide (c = "+"%char) then Some (Signed false)
      else if decide (c = "-"%char) then Some (Signed true)
      else d ← digit_val c; Some (Digits false d)
  | Signed neg => d ← digit_val c; Some (Digits neg d)
  | Digits neg acc =>
      if is_space c then Some (Trail (signed neg acc))
      else if decide (c = "_"%char) then Some (Under neg acc)
      else d ← digit_val c; Some (Digits neg (10 * acc + d))
  | Under neg acc => d ← digit_val c; Some (Digits neg (10 * acc + d))
  | Trail v => if is_space c then Some (Trail v) else None
  end.

Fixpoint int_run (st : int_state) (s : string) : option Z :=
  match s with
  | EmptyString =>
      match st with
      | Digits neg acc => Some (signed neg acc)
      | Trail v => Some v
      | _ => None
      end
  | String c s' => st' ← int_step st c; int_run st' s'
  end.

Definition to_int (s : string) : option Z := int_run Lead s.

End PyStr.

(** ** Exceptions and effects *)

(** The exceptions that can reach the caller.  [RequestException] stands
    for whatever [requests.request] raises, [JSONDecodeError] for a body
    [json.loads] rejects, [ParquetError] for a file [read_parquet] cannot
    load; the others are raised by the interpreter or by the code itself. *)
Inductive exn :=
| ValueError (msg : string)
| AssertionError
| TypeError
| KeyError (key : string)
| JSONDecodeError
| RequestException
| ParquetError.

(** A value or the exception raised instead; nothing in the module catches
    an exception. *)
Inductive Outcome (A : Type) :=
| Ok (a : A)
| Raise (e : exn).
Arguments Ok {A} a.
Arguments Raise {A} e.

Definition raises {A} (o : Outcome A) : bool :=
  match o with Ok _ => false | Raise _ => true end.

Definition of_option {A} (e : exn) (o : option A) : Outcome A :=
  match o with Some a => Ok a | None => Raise e end.

#[global] Instance outcome_ret : MRet Outcome := fun _ a => Ok a.
#[global] Instance outcome_bind : MBind Outcome := fun _ _ k m =>
  match m with Ok a => k a | Raise e => Raise e end.

(** ** Data exchanged with the libraries *)

Abbreviation dict := (list (string * string)).

(** [json.loads] results. *)
#[local] Unset Elimination Schemes.
Inductive json :=
| JNull
| JBool (b : bool)
| JInt (z : Z)
| JFloat (literal : string)
| JStr (s : string)
| JArr (items : list json)
| JObj (fields : gmap string json).
#[local] Set Elimination Schemes.

(** The [data] argument of [make_call]: a dict or a list of pairs. *)
Inductive Payload :=
| PayloadDict (d : dict)
| PayloadList (l : dict).

(** The keyword arguments [requests.request] receives from [make_call]. *)
Record Request := {
  req_method : string;
  req_url : string;
  req_params : option dict;
  req_headers : option dict;
  req_data : option Payload;
  req_kwargs : dict
}.

(** What the code reads of a [requests.Response]. *)
Record Response := {
  status_code : Z;
  content : string
}.

(** A [datetime]: the wall-clock fields as microseconds, and the UTC offset
    when the value is timezone-aware. *)
Record datetime := {
  wall : Z;
  tzinfo : option Z
}.

Definition replace_tzinfo_None (d : datetime) : datetime :=
  {| wall := wall d; tzinfo := None |}.

Inductive cell :=
| CInt (z : Z)
| CStr (s : string)
| CBool (b : bool).

(** A pandas [DataFrame]: the column labels and the rows in order, each row
    with its index label; a column a row has no value for reads as missing
    (NaN). *)
Record DataFrame := {
  columns : list string;
  rows : list (Z * gmap string cell)
}.

(** [len(df)] *)
Definition df_len (df : DataFrame) : nat := length (rows df).

Definition df_index (df : DataFrame) : list Z := fst <$> rows df.
Definition df_values (df : DataFrame) : list (gmap string cell) := snd <$> rows df.

(** The lines sent to [logger.info], by their content. *)
Inductive log_record :=
| LogLoadingFrom (owner repo branch : string)
| LogLastCommit (elapsed : Z)
| LogYearsReturned (count : nat) (lo hi : Z)
| LogLoadingRows (n : nat) (url : string)
| LogFinal (n : nat).

Inductive event :=
| EvRequest (r : Request)
| EvReadParquet (url : string)
| EvLog (l : log_record).

(** A computation that performs observable events and then returns or
    raises. *)
Record Eff (A : Type) := MkEff {
  trace : list event;
  outcome : Outcome A
}.
Arguments MkEff {A} trace outcome.
Arguments trace {A} e.
Arguments outcome {A} e.

#[global] Instance eff_ret : MRet Eff := fun _ a => MkEff [] (Ok a).
#[global] Instance eff_bind : MBind Eff := fun _ _ k m =>
  match outcome m with
  | Ok a => let r := k a in MkEff (trace m ++ trace r) (outcome r)
  | Raise e => MkEff (trace m) (Raise e)
  end.

Definition lift {A} (o : Outcome A) : Eff A := MkEff [] o.
Definition emit (ev : event) : Eff unit := MkEff [ev] (Ok tt).
Definition logger_info (l : log_record) : Eff unit := emit (EvLog l).
Definition py_assert (b : bool) : Eff unit :=
  lift (if b then Ok tt else Raise AssertionError).

(** ** pathlib: [Path(name)] on a POSIX host

    [PurePosixPath] as in CPython 3.8 to 3.11: one argument, no drive. *)

Module PurePath.

(** The parsed form of a path: the root (empty, ["/"] or ["//"]) and the
    components after it. *)
Record t := {
  root : string;
  parts : list string
}.

(** [_PosixFlavour.splitroot] *)
Definition splitroot (part : string) : string * string :=
  if PyStr.startswith "/" part then
    let stripped := PyStr.lstrip "/" part in
    if (String.length part - String.length stripped =? 2)%nat
    then ("//", stripped) else ("/", stripped)
  else ("", part).

Definition keeps (x : string) : bool :=
  PyStr.truthy x && negb (x =? ".")%string.

(** [_Flavour.parse_parts] for the single argument [Path(part)] is given. *)
Definition parse_parts (part : string) : t :=
  if negb (PyStr.truthy part) then {| root := ""; parts := [] |}
  else
    let '(rt, rel) := splitroot part in
    {| root := rt;
       parts := if PyStr.has_char "/" rel
                then List.filter keeps (PyStr.split "/" rel)
                else if keeps rel then [rel] else [] |}.

(** [str(path)] *)
Definition to_str (p : t) : string :=
  let s := root p +:+ PyStr.join "/" (parts p) in
  if PyStr.truthy s then s else ".".

(** [path.name] *)
Definition name (p : t) : string := List.last (parts p) "".

(** [path.suffixes] *)
Definition suffixes (p : t) : list string :=
  let name := name p in
  if PyStr.endswith_char "." name then []
  else (fun suffix => "." +:+ suffix) <$> List.tl (PyStr.split "." (PyStr.lstrip "." name)).

End PurePath.

(** ** urllib.parse

    The functions [generate_url] calls, and the decoder that is the inverse
    of [urlencode], as in CPython 3.8 to 3.11. *)

Module UrlLib.

Definition in_range (lo hi : Z) (c : ascii) : bool :=
  (lo <=? PyStr.code c) && (PyStr.code c <=? hi).

(** [_ALWAYS_SAFE]: letters, digits and [_.-~]. *)
Definition always_safe (c : ascii) : bool :=
  in_range 65 90 c || in_range 97 122 c || in_range 48 57 c
  || bool_decide (c = "_"%char) || bool_decide (c = "."%char)
  || bool_decide (c = "-"%char) || bool_decide (c = "~"%char).

Definition hex_digit (n : Z) : ascii :=
  ascii_of_N (Z.to_N (if n <? 10 then 48 + n else 55 + n)).

Definition unhex (c : ascii) : option Z :=
  if in_range 48 57 c then Some (PyStr.code c - 48)
  else if in_range 65 70 c then Some (PyStr.code c - 55)
  else if in_range 97 102 c then Some (PyStr.code c - 87)
  else None.

(** One byte through [Quoter]: itself when safe, else [%XX]. *)
Definition quote_byte (safe_space : bool) (c : ascii) : string :=
  if always_safe c || (safe_space && bool_decide (c = " "%char)) then String c ""
  else String "%" (String (hex_digit (PyStr.code c / 16))
                     (String (hex_digit (PyStr.code c mod 16)) "")).

(** [quote(s, safe)] with [safe] either empty or a single space. *)
Fixpoint quote (safe_space : bool) (s : string) : string :=
  match s with
  | EmptyString => EmptyString
  | String c s' => quote_byte safe_space c +:+ quote safe_space s'
  end.

(** [quote_plus(s)] as [urlencode] calls it, with no extra safe character. *)
Definition quote_plus (s : string) : string :=
  if PyStr.has_char " " s
  then PyStr.replace_char " " "+" (quote true s)
  else quote false s.

(** [urlencode(query)] for a mapping with text keys and values. *)
Definition urlencode (query : dict) : string :=
  PyStr.join "&" ((fun kv => quote_plus (fst kv) +:+ "=" +:+ quote_plus (snd kv)) <$> query).

(** [unquote(s)], before the final UTF-8 decoding. *)
Fixpoint unquote (s : string) : string :=
  match s with
  | EmptyString => EmptyString
  | String c s1 =>
      if decide (c = "%"%char) then
        match s1 with
        | String h1 (String h2 s3) =>
            match unhex h1, unhex h2 with
            | Some a, Some b => String (ascii_of_N (Z.to_N (16 * a + b))) (unquote s3)
            | _, _ => String c (unquote s1)
            end
        | _ => String c (unquote s1)
        end
      else String c (unquote s1)
  end.

Definition unquote_plus (s : string) : string :=
  unquote (PyStr.replace_char "+" " " s).

(** [parse_qsl(qs, keep_blank_values)] with the separator [&]. *)
Definition parse_qsl (keep_blank_values : bool) (qs : string) : dict :=
  if negb (PyStr.truthy qs) then []
  else
    name_value ← PyStr.split "&" qs;
    if negb (PyStr.truthy name_value) then []
    else
      match PyStr.split_once "=" name_value with
      | (n, Some v) =>
          if PyStr.truthy v || keep_blank_values
          then [(unquote_plus n, unquote_plus v)] else []
      | (n, None) =>
          if keep_blank_values then [(unquote_plus n, unquote_plus "")] else []
      end.

(** [urlsplit(url).query]: the text after the first [?] of what precedes
    the first [#]. *)
Definition query_of (url : string) : string :=
  match PyStr.split_once "?" (fst (PyStr.split_once "#" url)) with
  | (_, Some q) => q
  | (_, None) => ""
  end.

Record ParseResult := {
  scheme : string;
  netloc : string;
  path : string;
  params : string;
  query : string;
  fragment : string
}.

Definition uses_netloc : list string :=
  [""; "ftp"; "http"; "gopher"; "nntp"; "telnet"; "imap"; "wais"; "file";
   "mms"; "https"; "shttp"; "snews"; "prospero"; "rtsp"; "rtspu"; "rsync";
   "svn"; "svn+ssh"; "sftp"; "nfs"; "git"; "git+ssh"; "ws"; "wss"].

(** [urlunsplit((scheme, netloc, url, query, fragment))] *)
Definition urlunsplit (scheme netloc url query fragment : string) : string :=
  let url :=
    if PyStr.truthy netloc
       || (PyStr.truthy scheme && bool_decide (scheme ∈ uses_netloc)
           && negb (PyStr.startswith "//" url))
    then
      let url := if PyStr.truthy url && negb (PyStr.startswith "/" url)
                 then "/" +:+ url else url in
      "//" +:+ netloc +:+ url
    else url in
  let url := if PyStr.truthy scheme then scheme +:+ ":" +:+ url else url in
  let url := if PyStr.truthy query then url +:+ "?" +:+ query else url in
  let url := if PyStr.truthy fragment then url +:+ "#" +:+ fragment else url in
  url.

(** [urlunparse(components)] *)
Definition urlunparse (c : ParseResult) : string :=
  let url := if PyStr.truthy (params c) then path c +:+ ";" +:+ params c else path c in
  urlunsplit (scheme c) (netloc c) url (query c) (fragment c).

End UrlLib.

(** ** Python builtins on parsed JSON and numbers *)

(** [v[key]] for a text key. *)
Definition getitem (v : json) (key : string) : Outcome json :=
  match v with
  | JObj fields => of_option (KeyError key) (fields !! key)
  | _ => Raise TypeError
  end.

Fixpoint chars (s : string) : list string :=
  match s with
  | EmptyString => []
  | String c s' => String c "" :: chars s'
  end.

(** [for x in v]: the elements of an array, the keys of an object, the
    characters of a text. *)
Definition iterate (v : json) : Outcome (list json) :=
  match v with
  | JArr items => Ok items
  | JObj fields => Ok (JStr <$> (map_to_list fields).*1)
  | JStr s => Ok (JStr <$> chars s)
  | _ => Raise TypeError
  end.

(** [Path(v)] *)
Definition Path (v : json) : Outcome PurePath.t :=
  match v with
  | JStr s => Ok (PurePath.parse_parts s)
  | _ => Raise TypeError
  end.

(** [min(l)] and [max(l)] *)
Definition py_min (l : list Z) : Outcome Z :=
  match l with
  | [] => Raise (ValueError "min() arg is an empty sequence")
  | x :: l' => Ok (foldl Z.min x l')
  end.

Definition py_max (l : list Z) : Outcome Z :=
  match l with
  | [] => Raise (ValueError "max() arg is an empty sequence")
  | x :: l' => Ok (foldl Z.max x l')
  end.

(** A requested year: [Union[int, str]]. *)
Inductive Year :=
| YInt (n : Z)
| YStr (s : string).

(** [str(year)] *)
Definition year_str (year : Year) : string :=
  match year with
  | YInt n => PyStr.of_int n
  | YStr s => s
  end.

(** The error of [int(s)] on a text that is no integer literal (the message
    without the quoted text). *)
Definition invalid_literal : exn := ValueError "invalid literal for int() with base 10".

(** [int(year)] *)
Definition year_int (year : Year) : Outcome Z :=
  match year with
  | YInt n => Ok n
  | YStr s => of_option invalid_literal (PyStr.to_int s)
  end.

(** ** pandas.concat *)

(** The column labels of the result: those of the frames in order of first
    appearance. *)
Definition merge_columns (objs : list DataFrame) : list string :=
  foldl (fun acc df => acc ++ List.filter (fun c => bool_decide (c ∉ acc)) (remove_dups (columns df)))
        [] objs.

(** [ignore_index=True]: the rows are labelled [0 .. n-1]. *)
Definition reset_index (rs : list (gmap string cell)) : list (Z * gmap string cell) :=
  imap (fun i r => (Z.of_nat i, r)) rs.

(** [concat(objs, ignore_index=True)]: the rows of the frames one after the
    other under a fresh index [0 .. n-1]; no frame at all is an error. *)
Definition concat (objs : list DataFrame) : Outcome DataFrame :=
  match objs with
  | [] => Raise (ValueError "No objects to concatenate")
  | _ => Ok {| columns := merge_columns objs;
               rows := reset_index (mjoin (df_values <$> objs)) |}
  end.

(** ** The functions of [nfl_sdk.base] *)

Inductive PathArg :=
| PathStr (s : string)
| PathList (segments : list string).

Inductive QueryArg :=
| QueryStr (s : string)
| QueryDict (d : dict).

Inductive ExtArg :=
| ExtStr (s : string)
| ExtList (l : list string).

(** [str(value or empty)] on an optional text, [empty] the empty text. *)
Definition str_or_empty (value : option string) : string :=
  match value with
  | Some s => if PyStr.truthy s then s else ""
  | None => ""
  end.

(** [netloc] is declared [str]; it is optional here as every other
    component, since the defaulting of [None] treats them alike and [make_call]
    passes its own optional arguments on. *)
Definition generate_url (netloc scheme : option string) (path : option PathArg)
    (query : option QueryArg) (fragment : option string) : string :=
  let path :=
    match path with
    | Some (PathList segments) => Some (PyStr.join "/" segments)
    | Some (PathStr s) => Some s
    | None => None
    end in
  let query :=
    match query with
    | Some (QueryDict d) => Some (UrlLib.urlencode d)
    | Some (QueryStr s) => Some s
    | None => None
    end in
  let url_components :=
    {| UrlLib.scheme := str_or_empty scheme;
       UrlLib.netloc := str_or_empty netloc;
       UrlLib.path := str_or_empty path;
       UrlLib.params := str_or_empty None;
       UrlLib.query := str_or_empty query;
       UrlLib.fragment := str_or_empty fragment |} in
  UrlLib.urlunparse url_components.

Definition default_scheme : option string := Some "https".
Definition default_branch : string := "master".
Definition default_file_extensions : ExtArg := ExtStr ".parquet".

Definition make_call_error : exn :=
  ValueError "Must provide either url or netloc parameters to `make_call` function.".

Section Environment.

(** The world the functions talk to: the HTTP transport, the JSON and
    timestamp parsers, the clock and the parquet reader. *)
Variable request : Request -> option Response.
Variable loads : string -> option json.
Variable strptime : string -> option datetime.
Variable utcnow : datetime.
Variable read_parquet : string -> option DataFrame.

(** [requests.request] with the fields of [r] as keyword arguments: one
    request goes out; the transport answers or fails with an error of its
    own. *)
Definition do_request (r : Request) : Eff Response :=
  MkEff [EvRequest r] (of_option RequestException (request r)).

(** [read_parquet(url)] *)
Definition do_read_parquet (url : string) : Eff DataFrame :=
  MkEff [EvReadParquet url] (of_option ParquetError (read_parquet url)).

Definition make_call (method : string) (url netloc : option string)
    (params : option dict) (data : option Payload) (headers : option dict)
    (scheme : option string) (path : option PathArg) (query : option QueryArg)
    (fragment : option string) (kwargs : dict) : Eff Response :=
  url_to_call ← lift (
    if bool_decide (url = None) && bool_decide (netloc = None) then
      Raise make_call_error
    else
      match url with
      | Some url => Ok url
      | None => Ok (generate_url netloc scheme path query fragment)
      end);
  response ← do_request {| req_method := method; req_url := url_to_call;
                           req_params := params; req_headers := headers;
                           req_data := data; req_kwargs := kwargs |};
  mret response.

Definition branch_owner : string := "guga31bb".
Definition repository_name : string := "nflfastR-data".
Definition github_recommended_header : dict :=
  [("Accept", "application/vnd.github.v3+json")].

Definition introduce_repository (branch : string) : Eff unit :=
  repo_response ← make_call "get" None (Some "api.github.com") None None
                    (Some github_recommended_header) default_scheme
                    (Some (PathList ["repos"; branch_owner; repository_name; "branches"; branch]))
                    None None [];
  _ ← py_assert (status_code repo_response =? 200);
  response_content ← lift (of_option JSONDecodeError (loads (content repo_response)));
  date ← lift (c ← getitem response_content "commit"; c ← getitem c "commit";
               a ← getitem c "author"; getitem a "date");
  last_commit ← lift (match date with
                      | JStr s => of_option (ValueError "time data does not match format") (strptime s)
                      | _ => Raise TypeError
                      end);
  _ ← logger_info (LogLoadingFrom branch_owner repository_name branch);
  logger_info (LogLastCommit (wall utcnow - wall (replace_tzinfo_None last_commit))).

Section Listing.

Variable years : list Year.
Variable file_extensions : list string.

(** The body of the loop over the directory listing, with the list it
    appends to. *)
Fixpoint filter_files (response_content : list json) (filtered_files : list json)
    : Outcome (list json) :=
  match response_content with
  | [] => Ok filtered_files
  | file_dict :: rest =>
      name ← getitem file_dict "name";
      file_path ← Path name;
      let year_match :=
        existsb (fun year => PyStr.contains (year_str year) (PurePath.to_str file_path)) years in
      if bool_decide (PurePath.suffixes file_path = file_extensions) && year_match then
        download_url ← getitem file_dict "download_url";
        filter_files rest (filtered_files ++ [download_url])
      else filter_files rest filtered_files
  end.

End Listing.

Definition get_file_path_array (years : list Year) (branch : string)
    (file_extensions : ExtArg) : Eff (list json) :=
  repo_response ← make_call "get" None (Some "api.github.com") (Some [("ref", branch)]) None
                    (Some github_recommended_header) default_scheme
                    (Some (PathList ["repos"; branch_owner; repository_name; "contents"; "data"]))
                    None None [];
  _ ← py_assert (status_code repo_response =? 200);
  response_content ← lift (of_option JSONDecodeError (loads (content repo_response)));
  let file_extensions :=
    match file_extensions with
    | ExtStr s => [s]
    | ExtList l => l
    end in
  filtered_files ← lift (entries ← iterate response_content;
                         filter_files years file_extensions entries []);
  lo ← lift (ints ← mapM year_int years; py_min ints);
  hi ← lift (ints ← mapM year_int years; py_max ints);
  _ ← logger_info (LogYearsReturned (length filtered_files) lo hi);
  mret filtered_files.

Fixpoint load_files (file_paths : list string) (list_of_df : list DataFrame)
    : Eff (list DataFrame) :=
  match file_paths with
  | [] => mret list_of_df
  | file_url :: rest =>
      df ← do_read_parquet file_url;
      _ ← logger_info (LogLoadingRows (df_len df) file_url);
      load_files rest (list_of_df ++ [df])
  end.

Definition prepare_cross_year_data (file_paths : list string) : Eff DataFrame :=
  list_of_df ← load_files file_paths [];
  concat_df ← lift (concat list_of_df);
  _ ← logger_info (LogFinal (df_len concat_df));
  mret concat_df.

End Environment.

(** ** Vocabulary of the statements *)

(** The requests the two GitHub operations send. *)
Definition branches_request (branch : string) : Request :=
  {| req_method := "get";
     req_url := "https://api.github.com/repos/guga31bb/nflfastR-data/branches/" +:+ branch;
     req_params := None;
     req_headers := Some [("Accept", "application/vnd.github.v3+json")];
     req_data := None;
     req_kwargs := [] |}.

Definition contents_request (branch : string) : Request :=
  {| req_method := "get";
     req_url := "https://api.github.com/repos/guga31bb/nflfastR-data/contents/data";
     req_params := Some [("ref", branch)];
     req_headers := Some [("Accept", "application/vnd.github.v3+json")];
     req_data := None;
     req_kwargs := [] |}.

(** The extension filter after a single text has been wrapped in a list. *)
Definition normalized_extensions (file_extensions : ExtArg) : list string :=
  match file_extensions with
  | ExtStr s => [s]
  | ExtList l => l
  end.

(** The name of a listing entry, when it has one that is a text. *)
Definition entry_name (file_dict : json) : option string :=
  match getitem file_dict "name" with
  | Ok (JStr s) => Some s
  | _ => None
  end.

(** The download URL of a listing entry: [file_dict["download_url"]]. *)
Definition download_url (file_dict : json) : Outcome json := getitem file_dict "download_url".

(** The suffix chain of an entry name, as pathlib computes it. *)
Definition suffix_chain (name : string) : list string :=
  PurePath.suffixes (PurePath.parse_parts name).

(** The match criteria in the words of the specification: (a) the suffix
    chain of the name is the extension filter, (b) the text of some
    requested year occurs in the name. *)
Definition name_matches (years : list Year) (extensions : list string) (name : string) : bool :=
  bool_decide (suffix_chain name = extensions)
  && existsb (fun year => PyStr.contains (year_str year) name) years.

Definition entry_matches (years : list Year) (extensions : list string) (file_dict : json) : bool :=
  from_option (name_matches years extensions) false (entry_name file_dict).

(** The component texts [generate_url] hands to [urlunparse]. *)
Definition path_text (path : option PathArg) : string :=
  match path with
  | Some (PathList segments) => PyStr.join "/" segments
  | Some (PathStr s) => s
  | None => ""
  end.

Definition query_text (query : option QueryArg) : string :=
  match query with
  | Some (QueryDict d) => UrlLib.urlencode d
  | Some (QueryStr s) => s
  | None => ""
  end.

(** What is left of [get_file_path_array] once a response with status 200
    has arrived: the matched download URLs and the smallest and largest
    requested year, or the first error on the way. *)
Definition listing_result (loads : string -> option json) (years : list Year)
    (file_extensions : list string) (body : string) : Outcome (list json * Z * Z) :=
  response_content ← of_option JSONDecodeError (loads body);
  filtered_files ← (entries ← iterate response_content;
                    filter_files years file_extensions entries []);
  lo ← (ints ← mapM year_int years; py_min ints);
  hi ← (ints ← mapM year_int years; py_max ints);
  mret (filtered_files, lo, hi).

(** Likewise for [introduce_repository]: the time since the last commit. *)
Definition branch_result (loads : string -> option json)
    (strptime : string -> option datetime) (utcnow : datetime) (body : string) : Outcome Z :=
  response_content ← of_option JSONDecodeError (loads body);
  date ← (c ← getitem response_content "commit"; c ← getitem c "commit";
          a ← getitem c "author"; getitem a "date");
  last_commit ← match date with
                | JStr s => of_option (ValueError "time data does not match format") (strptime s)
                | _ => Raise TypeError
                end;
  mret (wall utcnow - wall (replace_tzinfo_None last_commit)).

(** The events of loading [file_paths] when the reads give [frames]. *)
Definition load_trace (file_paths : list string) (frames : list DataFrame) : list event :=
  mjoin (zip_with (fun url df => [EvReadParquet url; EvLog (LogLoadingRows (df_len df) url)])
           file_paths frames).

(** What [quote_plus] makes of one byte: itself when always safe, [+] for a
    space, [%XX] otherwise. *)
Definition plus_byte (c : ascii) : string :=
  if UrlLib.always_safe c then String c ""
  else if bool_decide (c = " "%char) then "+"
  else UrlLib.quote_byte false c.

Fixpoint plus_bytes (s : string) : string :=
  match s with
  | EmptyString => EmptyString
  | String c s' => plus_byte c +:+ plus_bytes s'
  end.

(** One [key=value] piece of an encoded query. *)
Definition pair_text (kv : string * string) : string :=
  UrlLib.quote_plus (fst kv) +:+ "=" +:+ UrlLib.quote_plus (snd kv).

(** ** The script at the end of the module *)

(** [range(start, stop, 1)] *)
Definition py_range (start stop : Z) : list Z := seqZ start (stop - start).

Definition start_year : Z := 2010.
Definition end_year : Z := 2020.
Definition script_branch : string := "master".

(** [read_parquet(file_url)] on a value taken from the listing: a text is
    the path to open, anything else is nothing [read_parquet] can load. *)
Definition do_read_parquet_value (read_parquet : string -> option DataFrame)
    (file_url : json) : Eff DataFrame :=
  match file_url with
  | JStr url => do_read_parquet read_parquet url
  | _ => lift (Raise ParquetError)
  end.

(** The loop of [prepare_cross_year_data] as the script runs it: over the
    values [get_file_path_array] returned, which are whatever the listing
    holds under [download_url]. *)
Fixpoint load_listed_files (read_parquet : string -> option DataFrame)
    (file_paths : list json) (list_of_df : list DataFrame) : Eff (list DataFrame) :=
  match file_paths with
  | [] => mret list_of_df
  | file_url :: rest =>
      df ← do_read_parquet_value read_parquet file_url;
      _ ← match file_url with
          | JStr url => logger_info (LogLoadingRows (df_len df) url)
          | _ => mret tt
          end;
      load_listed_files read_parquet rest (list_of_df ++ [df])
  end.

Definition prepare_listed_data (read_parquet : string -> option DataFrame)
    (file_paths : list json) : Eff DataFrame :=
  list_of_df ← load_listed_files read_parquet file_paths [];
  concat_df ← lift (concat list_of_df);
  _ ← logger_info (LogFinal (df_len concat_df));
  mret concat_df.

(** The body of [if __name__ == "__main__"], after the logging set-up. *)
Definition main (request : Request -> option Response) (loads : string -> option json)
    (strptime : string -> option datetime) (utcnow : datetime)
    (read_parquet : string -> option DataFrame) : Eff DataFrame :=
  let branch := script_branch in
  _ ← introduce_repository request loads strptime utcnow branch;
  year_files ← get_file_path_array request loads
                 (YInt <$> py_range start_year (end_year + 1)) branch default_file_extensions;
  final_df ← prepare_listed_data read_parquet year_files;
  mret final_df.

(** ** More vocabulary *)

(** The shape of every element of a suffix chain: a dot, then a text
    without a dot. *)
Definition is_suffix_text (ext : string) : bool :=
  match ext with
  | String c t => bool_decide (c = "."%char) && negb (PyStr.has_char "." t)
  | EmptyString => false
  end.

(** The value an entry holds under [download_url], null when it has none. *)
Definition url_of (file_dict : json) : json :=
  match download_url file_dict with
  | Ok url => url
  | Raise _ => JNull
  end.



(** ** Concrete worlds used to run the functions *)

Module Fixtures.

Definition entry (name url : string) : json :=
  JObj (<["name" := JStr name]> (<["download_url" := JStr url]> ∅)).

Definition entries : list json :=
  [entry "pbp_2019.parquet" "https://raw.example/pbp_2019.parquet";
   entry "pbp_2020.parquet" "https://raw.example/pbp_2020.parquet";
   entry "readme_2020.md" "https://raw.example/readme_2020.md"].

Definition listing : json := JArr entries.

(** A transport that answers every request with [status] and [body]. *)
Definition answer (status : Z) (body : string) (r : Request) : option Response :=
  Some {| status_code := status; content := body |}.

(** A JSON parser that knows three bodies: the listing and the branch
    description, referred to by name, and the empty array. *)
Definition loads (s : string) : option json :=
  if (s =? "listing")%string then Some listing
  else if (s =? "[]")%string then Some (JArr [])
  else if (s =? "branch")%string then
    Some (JObj {[ "commit" := JObj {[ "commit" := JObj {[ "author" :=
            JObj {[ "date" := JStr "2020-11-02T10:00:00+0000" ]} ]} ]} ]})
  else None.

Definition strptime (s : string) : option datetime :=
  if (s =? "2020-11-02T10:00:00+0000")%string
  then Some {| wall := 1604311200000000; tzinfo := Some 0 |} else None.

Definition utcnow : datetime := {| wall := 1604397600000000; tzinfo := None |}.

Definition row (season : Z) (play : Z) : gmap string cell :=
  {[ "season" := CInt season; "play_id" := CInt play ]}.

(** A frame of [n] rows for one season, indexed from zero. *)
Definition season_frame (season : Z) (n : nat) : DataFrame :=
  {| columns := ["season"; "play_id"];
     rows := (fun i => (Z.of_nat i, row season (Z.of_nat i))) <$> seq 0 n |}.

Definition read_parquet (url : string) : option DataFrame :=
  if (url =? "first")%string then Some (season_frame 2019 100)
  else if (url =? "second")%string then Some (season_frame 2020 250)
  else if (url =? "a")%string then Some (season_frame 2019 2)
  else if (url =? "b")%string then Some (season_frame 2020 3)
  else None.

End Fixtures.

(** The files a run asked [read_parquet] for, in order. *)
Definition files_read (events : list event) : list string :=
  omap (fun ev => match ev with EvReadParquet url => Some url | _ => None end) events.

(** The requests a run sent, in order. *)
Definition requests_sent (events : list event) : list Request :=
  omap (fun ev => match ev with EvRequest r => Some r | _ => None end) events.

(** ** More concrete worlds *)

Module Worlds.

(** What the Contents API answers for a path that is a file: an object. *)
Definition file_body : json :=
  JObj {[ "name" := JStr "README.md"; "download_url" := JStr "https://raw.example/README.md" ]}.

(** A listing whose second entry has no name. *)
Definition nameless_listing : json :=
  JArr [Fixtures.entry "pbp_2019.parquet" "https://raw.example/pbp_2019.parquet";
        JObj {[ "download_url" := JStr "https://raw.example/x.parquet" ]};
        Fixtures.entry "pbp_2020.parquet" "https://raw.example/pbp_2020.parquet"].

(** A listing with two season files that [read_parquet] below can load. *)
Definition seasons_listing : json :=
  JArr [Fixtures.entry "play_by_play_2019.parquet" "a";
        Fixtures.entry "play_by_play_2020.parquet" "b";
        Fixtures.entry "roster_2020.csv" "c"].

Definition loads (s : string) : option json :=
  if (s =? "file")%string then Some file_body
  else if (s =? "nameless")%string then Some nameless_listing
  else if (s =? "seasons")%string then Some seasons_listing
  else Fixtures.loads s.

(** A transport that serves the branch description at the branches
    endpoint and [listing_body] everywhere else. *)
Definition github (listing_body : string) (r : Request) : option Response :=
  if PyStr.contains "/branches/" (req_url r)
  then Some {| status_code := 200; content := "branch" |}
  else Some {| status_code := 200; content := listing_body |}.

End Worlds.

(** * Properties *)

(** ** Sanity checks of the library models *)

Example of_int_2019 : PyStr.of_int 2019 = "2019".
Proof. reflexivity. Qed.

Example of_int_neg : PyStr.of_int (-7) = "-7".
Proof. reflexivity. Qed.

Example of_int_zero : PyStr.of_int 0 = "0".
Proof. reflexivity. Qed.

Example to_int_ok : PyStr.to_int " +2_019 " = Some 2019.
Proof. reflexivity. Qed.

Example to_int_bad : PyStr.to_int "20__19" = None /\ PyStr.to_int "" = None
  /\ PyStr.to_int "2019.0" = None /\ PyStr.to_int "- 1" = None.
Proof. repeat split. Qed.

Example split_dot : PyStr.split "." "data_2020.csv.gz" = ["data_2020"; "csv"; "gz"].
Proof. reflexivity. Qed.

Example contains_year : PyStr.contains "2019" "play_by_play_2019.csv" = true
  /\ PyStr.contains "2018" "play_by_play_2019.csv" = false
  /\ PyStr.contains "" "" = true.
Proof. repeat split. Qed.

Example suffixes_csv_gz :
  PurePath.suffixes (PurePath.parse_parts "data_2020.csv.gz") = [".csv"; ".gz"].
Proof. reflexivity. Qed.

Example suffixes_hidden :
  PurePath.suffixes (PurePath.parse_parts ".bashrc") = []
  /\ PurePath.suffixes (PurePath.parse_parts "a.tar.") = []
  /\ PurePath.suffixes (PurePath.parse_parts "dir.d/pbp_2020.parquet") = [".parquet"].
Proof. repeat split. Qed.

Example to_str_normalises :
  PurePath.to_str (PurePath.parse_parts "a//b/./c/") = "a/b/c"
  /\ PurePath.to_str (PurePath.parse_parts "") = "."
  /\ PurePath.to_str (PurePath.parse_parts "//x") = "//x"
  /\ PurePath.to_str (PurePath.parse_parts "///x") = "/x".
Proof. repeat split. Qed.

Example quote_plus_ex : UrlLib.quote_plus "a b&c=d/é~" = "a+b%26c%3Dd%2F%C3%A9~".
Proof. reflexivity. Qed.

Example urlencode_ex : UrlLib.urlencode [("ref", "master"); ("q", "x y")] = "ref=master&q=x+y".
Proof. reflexivity. Qed.

Example parse_qsl_ex :
  UrlLib.parse_qsl true "ref=master&q=x+y&e=" = [("ref", "master"); ("q", "x y"); ("e", "")]
  /\ UrlLib.parse_qsl false "ref=master&q=x+y&e=" = [("ref", "master"); ("q", "x y")].
Proof. split; reflexivity. Qed.

Example urlunsplit_ex :
  UrlLib.urlunsplit "https" "api.github.com" "repos/a/b" "ref=master" "top"
  = "https://api.github.com/repos/a/b?ref=master#top".
Proof. reflexivity. Qed.

(** ** The effect monad *)

Lemma outcome_bind_ok {A B} (m : Outcome A) (k : A -> Outcome B) (b : B) :
  m ≫= k = Ok b <-> exists a, m = Ok a /\ k a = Ok b.
Proof.
  destruct m as [a|e]; simpl; split.
  - intros H. exists a. split; [reflexivity | exact H].
  - intros (a' & Ha & Hk). inversion Ha. subst. exact Hk.
  - discriminate.
  - intros (a' & Ha & _). discriminate.
Qed.


Lemma eff_bind_raise {A B} (m : Eff A) (k : A -> Eff B) (e : exn) :
  outcome m = Raise e -> m ≫= k = MkEff (trace m) (Raise e).
Proof. intros H. unfold mbind, eff_bind. rewrite H. reflexivity. Qed.


Lemma lift_bind_ok {A B} (a : A) (k : A -> Eff B) : lift (Ok a) ≫= k = k a.
Proof. unfold mbind, eff_bind, lift. simpl. destruct (k a). reflexivity. Qed.

Lemma lift_bind_raise {A B} (e : exn) (k : A -> Eff B) :
  lift (Raise e) ≫= k = MkEff [] (Raise e).
Proof. reflexivity. Qed.

Lemma eff_bind_ret {A} (m : Eff A) : m ≫= mret = m.
Proof.
  unfold mbind, eff_bind, mret, eff_ret. destruct m as [t [a|e]]; simpl.
  - rewrite app_nil_r. reflexivity.
  - reflexivity.
Qed.

(** ** [make_call] *)

Section MakeCall.

Variable request : Request -> option Response.

Lemma make_call_with_url method url netloc params data headers scheme path query fragment kwargs :
  make_call request method (Some url) netloc params data headers scheme path query fragment kwargs
  = do_request request {| req_method := method; req_url := url; req_params := params;
                          req_headers := headers; req_data := data; req_kwargs := kwargs |}.
Proof.
  unfold make_call. rewrite bool_decide_eq_false_2 by discriminate.
  cbn [andb]. rewrite lift_bind_ok. apply eff_bind_ret.
Qed.

Lemma make_call_with_netloc method netloc params data headers scheme path query fragment kwargs :
  make_call request method None (Some netloc) params data headers scheme path query fragment kwargs
  = do_request request {| req_method := method;
                          req_url := generate_url (Some netloc) scheme path query fragment;
                          req_params := params; req_headers := headers;
                          req_data := data; req_kwargs := kwargs |}.
Proof.
  unfold make_call. rewrite (bool_decide_eq_false_2 (Some netloc = None)) by discriminate.
  rewrite andb_false_r. rewrite lift_bind_ok. apply eff_bind_ret.
Qed.

Lemma make_call_without_target method params data headers scheme path query fragment kwargs :
  make_call request method None None params data headers scheme path query fragment kwargs
  = MkEff [] (Raise make_call_error).
Proof. reflexivity. Qed.


End MakeCall.

(** C6: when [url] is given, two calls that differ only in the URL-component
    arguments (netloc, scheme, path, query, fragment) are the same
    computation: both issue exactly the one request whose target is [url]
    verbatim, and so have the same result. *)
Theorem make_call_url_overrides_components
    (request : Request -> option Response) (method url : string)
    (params : option dict) (data : option Payload) (headers : option dict) (kwargs : dict)
    (netloc1 scheme1 : option string) (path1 : option PathArg) (query1 : option QueryArg)
    (fragment1 : option string)
    (netloc2 scheme2 : option string) (path2 : option PathArg) (query2 : option QueryArg)
    (fragment2 : option string) :
  let call1 := make_call request method (Some url) netloc1 params data headers
                 scheme1 path1 query1 fragment1 kwargs in
  let call2 := make_call request method (Some url) netloc2 params data headers
                 scheme2 path2 query2 fragment2 kwargs in
  call1 = call2
  /\ trace call1 = [EvRequest {| req_method := method; req_url := url; req_params := params;
                                 req_headers := headers; req_data := data;
                                 req_kwargs := kwargs |}].
Proof.
  cbv zeta. rewrite !make_call_with_url. split; reflexivity.
Qed.



(** ** [prepare_cross_year_data] *)

Lemma imap_label_values {A} (f : nat -> Z) (l : list A) :
  snd <$> imap (fun i r => (f i, r)) l = l.
Proof.
  revert f. induction l as [|x l IH]; intros f; [reflexivity|].
  rewrite imap_cons. cbn. f_equal. apply (IH (f ∘ S)).
Qed.

Lemma imap_label_labels {A} (f : nat -> Z) (l : list A) :
  fst <$> imap (fun i r => (f i, r)) l = f <$> seq 0 (length l).
Proof.
  revert f. induction l as [|x l IH]; intros f; [reflexivity|].
  rewrite imap_cons. cbn. f_equal.
  rewrite <- fmap_S_seq, <- list_fmap_compose. apply (IH (f ∘ S)).
Qed.

Lemma reset_index_values (rs : list (gmap string cell)) :
  snd <$> reset_index rs = rs.
Proof. apply imap_label_values. Qed.

Lemma reset_index_labels (rs : list (gmap string cell)) :
  fst <$> reset_index rs = Z.of_nat <$> seq 0 (length rs).
Proof. apply imap_label_labels. Qed.

Lemma df_values_length (df : DataFrame) : length (df_values df) = df_len df.
Proof. apply length_fmap. Qed.

Lemma sum_values_length (objs : list DataFrame) :
  sum_list (length <$> (df_values <$> objs)) = sum_list (df_len <$> objs).
Proof.
  induction objs as [|d objs IH]; [reflexivity|].
  cbn. rewrite IH, df_values_length. reflexivity.
Qed.

Lemma concat_frames (d : DataFrame) (objs : list DataFrame) :
  exists df, concat (d :: objs) = Ok df
    /\ df_values df = mjoin (df_values <$> d :: objs)
    /\ df_index df = Z.of_nat <$> seq 0 (length (mjoin (df_values <$> d :: objs))).
Proof.
  eexists. split; [reflexivity|]. unfold df_values at 1, df_index. cbn [rows].
  split; [apply reset_index_values | apply reset_index_labels].
Qed.

Section Aggregation.

Variable read_parquet : string -> option DataFrame.

Lemma load_files_all_read file_paths frames :
  Forall2 (fun url df => read_parquet url = Some df) file_paths frames ->
  forall list_of_df,
    load_files read_parquet file_paths list_of_df
    = MkEff (load_trace file_paths frames) (Ok (list_of_df ++ frames)).
Proof.
  induction 1 as [|url df paths frames Hread _ IH]; intros acc.
  - simpl. rewrite app_nil_r. reflexivity.
  - cbn [load_files]. unfold do_read_parquet. rewrite Hread.
    unfold mbind at 1, eff_bind at 1. cbn [outcome trace of_option].
    unfold mbind at 1, eff_bind at 1. cbn [outcome trace logger_info emit].
    rewrite IH. cbn [outcome trace]. rewrite <- app_assoc. reflexivity.
Qed.

End Aggregation.

Lemma df_values_between (before between after : list DataFrame) (a b : DataFrame) :
  mjoin (df_values <$> before ++ a :: between ++ b :: after)
  = mjoin (df_values <$> before) ++ df_values a ++ mjoin (df_values <$> between)
    ++ df_values b ++ mjoin (df_values <$> after).
Proof.
  rewrite fmap_app, join_app, fmap_cons. cbn [mjoin list_join].
  rewrite fmap_app, join_app, fmap_cons. cbn [mjoin list_join]. reflexivity.
Qed.

(** C3: when every file of a non-empty [file_paths] loads, the table
    [prepare_cross_year_data] returns has as many rows as the files together,
    its rows are the rows of the files one file after the other in the order
    of [file_paths], so that the rows of an earlier file all come before the
    rows of a later one, and its index is the fresh range [0 .. n-1]. *)
Theorem prepare_cross_year_data_concatenates
    (read_parquet : string -> option DataFrame)
    (file_paths : list string) (frames : list DataFrame) :
  file_paths <> [] ->
  Forall2 (fun url df => read_parquet url = Some df) file_paths frames ->
  exists concat_df,
    outcome (prepare_cross_year_data read_parquet file_paths) = Ok concat_df
    /\ df_len concat_df = sum_list (df_len <$> frames)
    /\ df_values concat_df = mjoin (df_values <$> frames)
    /\ (forall before earlier between later after,
          frames = before ++ earlier :: between ++ later :: after ->
          exists pre mid post,
            df_values concat_df
            = pre ++ df_values earlier ++ mid ++ df_values later ++ post)
    /\ df_index concat_df = Z.of_nat <$> seq 0 (df_len concat_df).
Proof.
  intros Hne Hall. unfold prepare_cross_year_data.
  rewrite (load_files_all_read _ _ _ Hall []). cbn [app].
  destruct Hall as [|url d paths objs _ _]; [congruence|].
  destruct (concat_frames d objs) as (df & Hc & Hv & Hi).
  exists df. unfold mbind at 1, eff_bind at 1. cbn [outcome trace].
  rewrite Hc. unfold lift, mbind, eff_bind. cbn.
  assert (Hlen : df_len df = length (mjoin (df_values <$> d :: objs))).
  { rewrite <- Hv. symmetry. apply df_values_length. }
  split; [reflexivity|]. split; [|split; [|split]].
  - rewrite Hlen, length_join. apply sum_values_length.
  - exact Hv.
  - intros before earlier between later after Hsplit.
    rewrite Hv, Hsplit, df_values_between. eauto.
  - rewrite Hlen. exact Hi.
Qed.

Lemma season_frame_len (season : Z) (n : nat) : df_len (Fixtures.season_frame season n) = n.
Proof. unfold df_len, Fixtures.season_frame. cbn [rows]. rewrite length_fmap. apply length_seq. Qed.

(** Two files of 100 and 250 rows give 350 rows, the 100 rows of the first
    file first. *)
Lemma prepare_cross_year_data_concatenates_witness :
  exists concat_df,
    outcome (prepare_cross_year_data Fixtures.read_parquet ["first"; "second"]) = Ok concat_df
    /\ df_len concat_df = 350%nat
    /\ df_values concat_df = df_values (Fixtures.season_frame 2019 100)
                             ++ df_values (Fixtures.season_frame 2020 250)
    /\ df_index concat_df = Z.of_nat <$> seq 0 350.
Proof.
  destruct (prepare_cross_year_data_concatenates Fixtures.read_parquet ["first"; "second"]
              [Fixtures.season_frame 2019 100; Fixtures.season_frame 2020 250])
    as (df & Hok & Hlen & Hvals & _ & Hidx).
  - discriminate.
  - repeat constructor.
  - assert (H350 : df_len df = 350%nat).
    { rewrite Hlen. cbn [fmap list_fmap sum_list sum_list_with].
      rewrite !season_frame_len. reflexivity. }
    exists df. split; [exact Hok|]. split; [exact H350|]. split.
    + rewrite Hvals. cbn [fmap list_fmap mjoin list_join]. rewrite app_nil_r. reflexivity.
    + rewrite Hidx, H350. reflexivity.
Defined.

(** C9: with no file at all [prepare_cross_year_data] raises the error of
    concatenating zero tables, before any event, and returns no table; yet
    the empty list is a value [get_file_path_array] returns without error
    (here for a 200 response with an empty listing). *)
Theorem prepare_cross_year_data_empty (read_parquet : string -> option DataFrame) :
  prepare_cross_year_data read_parquet []
  = MkEff [] (Raise (ValueError "No objects to concatenate"))
  /\ outcome (get_file_path_array (Fixtures.answer 200 "[]") Fixtures.loads
                [YInt 2020] default_branch default_file_extensions) = Ok [].
Proof. split; reflexivity. Qed.

(** ** Facts about Python strings *)

Module PyStrFacts.
Import PyStr.

Lemma append_nil_l (s : string) : "" +:+ s = s.
Proof. reflexivity. Qed.

Lemma append_cons (x : ascii) (a b : string) : String x a +:+ b = String x (a +:+ b).
Proof. reflexivity. Qed.

Lemma append_nil_r (s : string) : s +:+ "" = s.
Proof.
  induction s as [|x s IH]; [reflexivity|]. rewrite append_cons, IH. reflexivity.
Qed.

Lemma append_assoc (a b c : string) : (a +:+ b) +:+ c = a +:+ (b +:+ c).
Proof.
  induction a as [|x a IH]; [reflexivity|]. rewrite !append_cons, IH. reflexivity.
Qed.

Lemma truthy_append (a b : string) : truthy (a +:+ b) = truthy a || truthy b.
Proof. destruct a; reflexivity. Qed.

Lemma has_char_append (c : ascii) (a b : string) :
  has_char c (a +:+ b) = has_char c a || has_char c b.
Proof.
  induction a as [|x a IH]; [reflexivity|]. rewrite append_cons. simpl.
  destruct (decide (x = c)); [reflexivity | exact IH].
Qed.

Lemma startswith_nil_r (p : string) : startswith p "" = negb (truthy p).
Proof. destruct p; reflexivity. Qed.

(** A pattern without the separator cannot start across it. *)
Lemma startswith_sep (c : ascii) (p a b : string) :
  has_char c p = false -> startswith p (a +:+ String c b) = startswith p a.
Proof.
  revert p. induction a as [|y a IH]; intros p Hp.
  - destruct p as [|x p]; [reflexivity|]. simpl in *.
    destruct (decide (x = c)); [discriminate | reflexivity].
  - destruct p as [|x p]; [reflexivity|]. simpl in *.
    destruct (decide (x = c)); [discriminate|].
    destruct (decide (x = y)); [apply IH; exact Hp | reflexivity].
Qed.

Lemma contains_nil_r (p : string) : contains p "" = negb (truthy p).
Proof. simpl. rewrite orb_false_r. apply startswith_nil_r. Qed.

(** ... so it occurs on one side of the separator or on the other. *)
Lemma contains_sep (c : ascii) (p a b : string) :
  has_char c p = false ->
  contains p (a +:+ String c b) = contains p a || contains p b.
Proof.
  intros Hp. induction a as [|y a IH].
  - change ("" +:+ String c b) with (String c b).
    rewrite contains_nil_r. cbn [contains].
    rewrite (startswith_sep c p "" b Hp : startswith p (String c b) = _).
    rewrite startswith_nil_r. reflexivity.
  - change (String y a +:+ String c b) with (String y (a +:+ String c b)).
    cbn [contains].
    rewrite (startswith_sep c p (String y a) b Hp : startswith p (String y (a +:+ String c b)) = _).
    rewrite IH, orb_assoc. reflexivity.
Qed.

Lemma contains_cons_sep (c : ascii) (p b : string) :
  truthy p = true -> has_char c p = false ->
  contains p (String c b) = contains p b.
Proof.
  intros Ht Hp. rewrite (contains_sep c p "" b Hp : contains p (String c b) = _).
  rewrite contains_nil_r, Ht. reflexivity.
Qed.

Lemma contains_lstrip (c : ascii) (p s : string) :
  truthy p = true -> has_char c p = false ->
  contains p (lstrip c s) = contains p s.
Proof.
  intros Ht Hp. induction s as [|x s IH]; [reflexivity|].
  cbn [lstrip]. destruct (decide (x = c)) as [->|]; [|reflexivity].
  rewrite IH. symmetry. apply contains_cons_sep; assumption.
Qed.

Lemma split_not_nil (c : ascii) (s : string) : split c s <> [].
Proof.
  destruct s as [|x s]; simpl; [discriminate|].
  destruct (decide (x = c)); [discriminate|].
  destruct (split c s); discriminate.
Qed.

Lemma join_cons (sep x : string) (l : list string) :
  l <> [] -> join sep (x :: l) = x +:+ sep +:+ join sep l.
Proof. destruct l; [congruence | reflexivity]. Qed.

Lemma join_split (c : ascii) (s : string) : join (String c "") (split c s) = s.
Proof.
  induction s as [|x s IH]; [reflexivity|].
  cbn [split]. destruct (decide (x = c)) as [->|].
  - rewrite join_cons by apply split_not_nil. rewrite IH. reflexivity.
  - pose proof (split_not_nil c s) as Hne.
    destruct (split c s) as [|h t]; [congruence|].
    destruct t as [|h' t].
    + simpl in *. rewrite IH. reflexivity.
    + rewrite join_cons in IH by discriminate. rewrite join_cons by discriminate.
      rewrite <- IH. reflexivity.
Qed.

Lemma split_no_sep (c : ascii) (s : string) : has_char c s = false -> split c s = [s].
Proof.
  induction s as [|x s IH]; [reflexivity|]. simpl.
  destruct (decide (x = c)); [discriminate|]. intros H. rewrite (IH H). reflexivity.
Qed.

Lemma contains_join (c : ascii) (p : string) (l : list string) :
  has_char c p = false -> l <> [] ->
  contains p (join (String c "") l) = existsb (contains p) l.
Proof.
  intros Hp. induction l as [|x l IH]; [congruence|]. intros _.
  destruct l as [|y l].
  - simpl. rewrite orb_false_r. reflexivity.
  - rewrite join_cons by discriminate.
    change (String c "" +:+ join (String c "") (y :: l))
      with (String c (join (String c "") (y :: l))).
    rewrite contains_sep by exact Hp. rewrite IH by discriminate. reflexivity.
Qed.

Lemma contains_split (c : ascii) (p s : string) :
  has_char c p = false -> contains p s = existsb (contains p) (split c s).
Proof.
  intros Hp. rewrite <- (join_split c s) at 1.
  apply contains_join; [exact Hp | apply split_not_nil].
Qed.

Lemma existsb_filter_implied {A} (f g : A -> bool) (l : list A) :
  (forall x, f x = true -> g x = true) ->
  existsb f (List.filter g l) = existsb f l.
Proof.
  intros Hfg. induction l as [|x l IH]; [reflexivity|]. simpl.
  destruct (g x) eqn:Hg; simpl; rewrite IH; [reflexivity|].
  destruct (f x) eqn:Hf; [|reflexivity]. rewrite (Hfg x Hf) in Hg. discriminate.
Qed.

End PyStrFacts.

(** ** [str(Path(name))] against [name] *)

Module PurePathFacts.
Import PyStr PyStrFacts PurePath.

Lemma parts_are_kept_pieces (rel : string) :
  (if has_char "/" rel then List.filter keeps (split "/" rel)
   else if keeps rel then [rel] else [])
  = List.filter keeps (split "/" rel).
Proof.
  destruct (has_char "/" rel) eqn:H; [reflexivity|].
  rewrite (split_no_sep _ _ H). reflexivity.
Qed.

Section Pattern.

Variable p : string.
Hypothesis p_truthy : truthy p = true.
Hypothesis p_no_slash : has_char "/" p = false.
Hypothesis p_no_dot : has_char "." p = false.

Lemma contains_empty : contains p "" = false.
Proof. rewrite contains_nil_r, p_truthy. reflexivity. Qed.

Lemma contains_dot : contains p "." = false.
Proof. rewrite (contains_cons_sep "." p "" p_truthy p_no_dot). apply contains_empty. Qed.

Lemma contains_keeps (x : string) : contains p x = true -> keeps x = true.
Proof.
  intros H. unfold keeps. destruct x as [|c x].
  - rewrite contains_empty in H. discriminate.
  - cbn [truthy andb]. destruct (String.eqb_spec (String c x) ".") as [E|]; [|reflexivity].
    rewrite E, contains_dot in H. discriminate.
Qed.

Lemma contains_joined_parts (l : list string) :
  contains p (join "/" l) = existsb (contains p) l.
Proof.
  destruct l as [|x l]; [apply contains_empty|].
  apply (contains_join "/" p (x :: l) p_no_slash). discriminate.
Qed.

Lemma contains_splitroot (name : string) :
  contains p (snd (splitroot name)) = contains p name
  /\ forall s, contains p (fst (splitroot name) +:+ s) = contains p s.
Proof.
  unfold splitroot. destruct (startswith "/" name); [|split; reflexivity].
  split.
  - destruct (_ =? _)%nat; apply contains_lstrip; assumption.
  - intros s. destruct (_ =? _)%nat; cbn [fst]; rewrite ?append_cons, append_nil_l.
    + rewrite !(contains_cons_sep "/") by assumption. reflexivity.
    + rewrite (contains_cons_sep "/") by assumption. reflexivity.
Qed.

(** A text that is non-empty and free of [/] and [.] occurs in the
    normalised path exactly when it occurs in the name the path was built
    from. *)
Lemma contains_to_str (name : string) :
  contains p (to_str (parse_parts name)) = contains p name.
Proof.
  unfold parse_parts. destruct name as [|c name'] eqn:Hname.
  - change (contains p "." = contains p ""). rewrite contains_empty. apply contains_dot.
  - rewrite <- Hname. replace (negb (truthy name)) with false by (rewrite Hname; reflexivity).
    destruct (contains_splitroot name) as [Hrel Hroot].
    destruct (splitroot name) as [rt rel]. cbn [fst snd] in *.
    rewrite parts_are_kept_pieces. unfold to_str. cbn [root parts].
    set (s := rt +:+ join "/" (List.filter keeps (split "/" rel))).
    assert (Hs : contains p s = contains p name).
    { subst s. rewrite Hroot, contains_joined_parts.
      rewrite (existsb_filter_implied _ _ _ contains_keeps).
      rewrite <- (contains_split "/" p rel p_no_slash). exact Hrel. }
    destruct (truthy s) eqn:Ht; [exact Hs|].
    destruct s; [|discriminate]. rewrite <- Hs, contains_empty. apply contains_dot.
Qed.

End Pattern.

End PurePathFacts.

(** ** Requested years *)

Module YearFacts.
Import PyStr PyStrFacts.

Lemma int_run_chars (c : ascii) :
  (forall st, int_step st c = None) ->
  forall s st v, int_run st s = Some v -> has_char c s = false.
Proof.
  intros Hc. induction s as [|x s IH]; intros st v H; [reflexivity|].
  simpl in *. destruct (decide (x = c)) as [->|].
  - rewrite Hc in H. discriminate.
  - destruct (int_step st x) as [st'|]; [|discriminate]. exact (IH _ _ H).
Qed.

Lemma int_step_slash (st : int_state) : int_step st "/" = None.
Proof. destruct st; reflexivity. Qed.

Lemma int_step_dot (st : int_state) : int_step st "." = None.
Proof. destruct st; reflexivity. Qed.

Lemma uint_chars (c : ascii) (d : Decimal.uint) :
  digit_val c = None -> has_char c (NilEmpty.string_of_uint d) = false.
Proof.
  intros Hc. induction d; simpl; [reflexivity|..];
    (destruct (decide (_ = c)) as [<-|]; [discriminate Hc | assumption]).
Qed.

Lemma of_int_chars (c : ascii) (n : Z) :
  digit_val c = None -> c <> "-"%char -> has_char c (of_int n) = false.
Proof.
  intros Hc Hm. unfold of_int.
  assert (Hu : forall d, has_char c (NilZero.string_of_uint d) = false).
  { intros d. pose proof (uint_chars c d Hc) as H.
    destruct d; try exact H. simpl.
    destruct (decide (_ = c)) as [<-|]; [discriminate Hc | reflexivity]. }
  destruct (Z.to_int n) as [d|d]; simpl.
  - apply Hu.
  - destruct (decide (_ = c)) as [E|]; [congruence | apply Hu].
Qed.

Lemma of_int_truthy (n : Z) : truthy (of_int n) = true.
Proof.
  unfold of_int. destruct (Z.to_int n) as [d|d]; simpl; [|reflexivity].
  destruct d; reflexivity.
Qed.

(** The text of a year that [int()] accepts is non-empty and has neither
    [/] nor [.] in it. *)
Lemma year_str_plain (year : Year) (n : Z) :
  year_int year = Ok n ->
  truthy (year_str year) = true
  /\ has_char "/" (year_str year) = false
  /\ has_char "." (year_str year) = false.
Proof.
  destruct year as [m|s]; simpl.
  - intros _. split; [apply of_int_truthy|].
    split; apply of_int_chars; (reflexivity || discriminate).
  - unfold to_int. destruct (int_run Lead s) as [v|] eqn:H; [|discriminate].
    intros _. split; [destruct s; [discriminate H | reflexivity]|].
    split; [apply (int_run_chars "/" int_step_slash s Lead v H)
           | apply (int_run_chars "." int_step_dot s Lead v H)].
Qed.

Lemma year_match_on_name (years : list Year) (name : string) :
  Forall (fun year => exists n, year_int year = Ok n) years ->
  existsb (fun year => contains (year_str year) (PurePath.to_str (PurePath.parse_parts name))) years
  = existsb (fun year => contains (year_str year) name) years.
Proof.
  induction 1 as [|year years [n Hn] _ IH]; [reflexivity|]. simpl.
  destruct (year_str_plain year n Hn) as (Ht & Hs & Hd).
  rewrite (PurePathFacts.contains_to_str _ Ht Hs Hd), IH. reflexivity.
Qed.

End YearFacts.

(** ** The GitHub operations, step by step *)

Section GitHub.

Variable request : Request -> option Response.
Variable loads : string -> option json.
Variable strptime : string -> option datetime.
Variable utcnow : datetime.

Lemma branches_call (branch : string) :
  make_call request "get" None (Some "api.github.com") None None
    (Some github_recommended_header) default_scheme
    (Some (PathList ["repos"; branch_owner; repository_name; "branches"; branch])) None None []
  = do_request request (branches_request branch).
Proof. rewrite make_call_with_netloc. reflexivity. Qed.

Lemma contents_call (branch : string) :
  make_call request "get" None (Some "api.github.com") (Some [("ref", branch)]) None
    (Some github_recommended_header) default_scheme
    (Some (PathList ["repos"; branch_owner; repository_name; "contents"; "data"])) None None []
  = do_request request (contents_request branch).
Proof. rewrite make_call_with_netloc. reflexivity. Qed.

Lemma get_file_path_array_no_response years branch exts :
  request (contents_request branch) = None ->
  get_file_path_array request loads years branch exts
  = MkEff [EvRequest (contents_request branch)] (Raise RequestException).
Proof.
  intros H. unfold get_file_path_array. rewrite contents_call.
  apply eff_bind_raise. unfold do_request. rewrite H. reflexivity.
Qed.

Lemma get_file_path_array_run years branch exts resp :
  request (contents_request branch) = Some resp ->
  get_file_path_array request loads years branch exts
  = if status_code resp =? 200 then
      match listing_result loads years (normalized_extensions exts) (content resp) with
      | Ok (files, lo, hi) =>
          MkEff [EvRequest (contents_request branch);
                 EvLog (LogYearsReturned (length files) lo hi)] (Ok files)
      | Raise e => MkEff [EvRequest (contents_request branch)] (Raise e)
      end
    else MkEff [EvRequest (contents_request branch)] (Raise AssertionError).
Proof.
  intros H. unfold get_file_path_array, listing_result. rewrite contents_call.
  unfold do_request. rewrite H.
  fold (normalized_extensions exts).
  unfold mbind at 1, eff_bind at 1. cbn [outcome trace of_option].
  destruct (status_code resp =? 200); [|reflexivity].
  unfold py_assert. rewrite lift_bind_ok.
  destruct (loads (content resp)) as [listing|]; [|reflexivity].
  cbn [of_option]. rewrite lift_bind_ok.
  change (Ok listing ≫= ?k) with (k listing). cbv beta.
  destruct (iterate listing ≫= _) as [files|e]; [|reflexivity].
  rewrite lift_bind_ok. change (Ok files ≫= ?k) with (k files). cbv beta.
  destruct (mapM year_int years) as [ints|e]; [|reflexivity].
  change (Ok ints ≫= ?k) with (k ints). cbv beta.
  destruct (py_min ints) as [lo|e]; [|reflexivity].
  rewrite lift_bind_ok. change (Ok lo ≫= ?k) with (k lo). cbv beta.
  destruct (py_max ints) as [hi|e]; [|reflexivity].
  reflexivity.
Qed.

Lemma introduce_repository_no_response branch :
  request (branches_request branch) = None ->
  introduce_repository request loads strptime utcnow branch
  = MkEff [EvRequest (branches_request branch)] (Raise RequestException).
Proof.
  intros H. unfold introduce_repository. rewrite branches_call.
  apply eff_bind_raise. unfold do_request. rewrite H. reflexivity.
Qed.

Lemma introduce_repository_run branch resp :
  request (branches_request branch) = Some resp ->
  introduce_repository request loads strptime utcnow branch
  = if status_code resp =? 200 then
      match branch_result loads strptime utcnow (content resp) with
      | Ok elapsed =>
          MkEff [EvRequest (branches_request branch);
                 EvLog (LogLoadingFrom branch_owner repository_name branch);
                 EvLog (LogLastCommit elapsed)] (Ok tt)
      | Raise e => MkEff [EvRequest (branches_request branch)] (Raise e)
      end
    else MkEff [EvRequest (branches_request branch)] (Raise AssertionError).
Proof.
  intros H. unfold introduce_repository, branch_result. rewrite branches_call.
  unfold do_request. rewrite H.
  unfold mbind at 1, eff_bind at 1. cbn [outcome trace of_option].
  destruct (status_code resp =? 200); [|reflexivity].
  unfold py_assert. rewrite lift_bind_ok.
  destruct (loads (content resp)) as [body|]; [|reflexivity].
  cbn [of_option]. rewrite lift_bind_ok.
  change (Ok body ≫= ?k) with (k body). cbv beta.
  destruct (getitem body "commit" ≫= _) as [date|e]; [|reflexivity].
  rewrite lift_bind_ok. change (Ok date ≫= ?k) with (k date). cbv beta.
  destruct (match date with JStr s => _ | _ => _ end) as [last|e]; [|reflexivity].
  reflexivity.
Qed.

End GitHub.

(** ** Converting the requested years *)

Module YearConversion.
Import PyStr.





Lemma year_int_cases (year : Year) :
  (exists n, year_int year = Ok n) \/ year_int year = Raise invalid_literal.
Proof.
  destruct year as [n|s]; simpl; [left; eauto|].
  destruct (to_int s); simpl; [left; eauto | right; reflexivity].
Qed.

Lemma mapM_year_int_cons (year : Year) (years : list Year) :
  mapM year_int (year :: years)
  = n ← year_int year; ints ← mapM year_int years; mret (n :: ints).
Proof. reflexivity. Qed.

Lemma mapM_year_int_ok (years : list Year) (ints : list Z) :
  mapM year_int years = Ok ints ->
  Forall (fun year => exists n, year_int year = Ok n) years /\ length ints = length years.
Proof.
  revert ints. induction years as [|year years IH]; intros ints.
  - intros H. inversion H. split; [constructor | reflexivity].
  - rewrite mapM_year_int_cons. intros H.
    apply outcome_bind_ok in H as (n & Hn & H).
    apply outcome_bind_ok in H as (rest & Hrest & H). inversion H. subst.
    destruct (IH rest Hrest) as [Hall Hlen].
    split; [constructor; eauto | simpl; congruence].
Qed.

Lemma mapM_year_int_all (years : list Year) :
  Forall (fun year => exists n, year_int year = Ok n) years ->
  exists ints, mapM year_int years = Ok ints /\ length ints = length years.
Proof.
  induction 1 as [|year years [n Hn] _ (ints & Hints & Hlen)].
  - exists []. split; reflexivity.
  - exists (n :: ints). rewrite mapM_year_int_cons, Hn, Hints.
    split; [reflexivity | simpl; congruence].
Qed.


Lemma py_min_ok (ints : list Z) : ints <> [] -> exists lo, py_min ints = Ok lo.
Proof. destruct ints; [congruence | eexists; reflexivity]. Qed.

Lemma py_max_ok (ints : list Z) : ints <> [] -> exists hi, py_max ints = Ok hi.
Proof. destruct ints; [congruence | eexists; reflexivity]. Qed.

End YearConversion.

(** ** The loop over the directory listing *)

Section ListingLoop.

Variable years : list Year.
Variable extensions : list string.

Lemma entry_name_getitem (file_dict : json) (name : string) :
  entry_name file_dict = Some name <-> getitem file_dict "name" = Ok (JStr name).
Proof.
  unfold entry_name. destruct (getitem file_dict "name") as [v|e].
  - destruct v; split; intros H; inversion H; reflexivity.
  - split; discriminate.
Qed.

Lemma filter_files_step (file_dict : json) (rest acc : list json) (name : string) :
  Forall (fun year => exists n, year_int year = Ok n) years ->
  entry_name file_dict = Some name ->
  filter_files years extensions (file_dict :: rest) acc
  = if entry_matches years extensions file_dict
    then url ← download_url file_dict; filter_files years extensions rest (acc ++ [url])
    else filter_files years extensions rest acc.
Proof.
  intros Hyears Hname. unfold entry_matches. rewrite Hname. cbn [from_option].
  apply entry_name_getitem in Hname. cbn [filter_files]. rewrite Hname.
  cbn [mbind outcome_bind Path].
  rewrite (YearFacts.year_match_on_name years name Hyears). reflexivity.
Qed.

Lemma filter_files_nameless (file_dict : json) (rest acc : list json) :
  entry_name file_dict = None ->
  raises (filter_files years extensions (file_dict :: rest) acc) = true.
Proof.
  unfold entry_name. cbn [filter_files].
  destruct (getitem file_dict "name") as [v|e]; [|reflexivity].
  destruct v; (discriminate || reflexivity).
Qed.

(** What a successful pass over the listing returns. *)
Lemma filter_files_ok (entries : list json) :
  Forall (fun year => exists n, year_int year = Ok n) years ->
  forall acc files,
    filter_files years extensions entries acc = Ok files ->
    Forall (fun file_dict => is_Some (entry_name file_dict)) entries
    /\ exists urls, files = acc ++ urls
       /\ download_url <$> List.filter (entry_matches years extensions) entries = Ok <$> urls.
Proof.
  intros Hyears. induction entries as [|file_dict rest IH]; intros acc files H.
  - inversion H. split; [constructor|]. exists []. rewrite app_nil_r. split; reflexivity.
  - destruct (entry_name file_dict) as [name|] eqn:Hname.
    2:{ pose proof (filter_files_nameless file_dict rest acc Hname) as Hr.
        rewrite H in Hr. discriminate. }
    rewrite (filter_files_step _ _ _ name Hyears Hname) in H.
    cbn [List.filter]. destruct (entry_matches years extensions file_dict).
    + apply outcome_bind_ok in H as (url & Hurl & H).
      destruct (IH _ _ H) as (Hall & urls & -> & Hurls).
      split; [constructor; eauto|]. exists (url :: urls).
      rewrite <- app_assoc. split; [reflexivity|].
      rewrite !fmap_cons, Hurl, Hurls. reflexivity.
    + destruct (IH _ _ H) as (Hall & urls & -> & Hurls).
      split; [constructor; eauto|]. exists urls. split; [reflexivity | exact Hurls].
Qed.


Lemma getitem_not_assertion (v : json) (key : string) (e : exn) :
  getitem v key = Raise e -> e <> AssertionError.
Proof.
  destruct v as [| | | | | |fields]; simpl; try (intros H; inversion H; discriminate).
  destruct (fields !! key); simpl; intros H; inversion H; discriminate.
Qed.

Lemma filter_files_not_assertion (entries : list json) :
  forall acc, filter_files years extensions entries acc <> Raise AssertionError.
Proof.
  induction entries as [|file_dict rest IH]; intros acc; [discriminate|].
  cbn [filter_files].
  destruct (getitem file_dict "name") as [v|e] eqn:Hn; cbn [mbind outcome_bind].
  2:{ intros H. inversion H. subst. exact (getitem_not_assertion _ _ _ Hn eq_refl). }
  destruct v; try discriminate. cbn [Path mbind outcome_bind].
  match goal with |- context [if ?b then _ else _] => destruct b end; [|apply IH].
  destruct (getitem file_dict "download_url") as [u|e] eqn:Hu; cbn [mbind outcome_bind];
    [apply IH|].
  intros H. inversion H. subst. exact (getitem_not_assertion _ _ _ Hu eq_refl).
Qed.

End ListingLoop.

(** ** [get_file_path_array] and [introduce_repository] *)

Section Results.

Variable loads : string -> option json.

Lemma mapM_year_int_raise_is (years : list Year) (e : exn) :
  mapM year_int years = Raise e -> e = invalid_literal.
Proof.
  induction years as [|year years IH]; [discriminate|].
  rewrite YearConversion.mapM_year_int_cons.
  destruct (YearConversion.year_int_cases year) as [[n ->] | ->].
  - cbn [mbind outcome_bind]. destruct (mapM year_int years) as [ints|e'].
    + discriminate.
    + intros H. inversion H. subst. apply IH. reflexivity.
  - intros H. inversion H. reflexivity.
Qed.

Lemma listing_result_ok years exts body files lo hi :
  listing_result loads years exts body = Ok (files, lo, hi)
  <-> exists listing entries ints,
        loads body = Some listing /\ iterate listing = Ok entries
        /\ filter_files years exts entries [] = Ok files
        /\ mapM year_int years = Ok ints /\ py_min ints = Ok lo /\ py_max ints = Ok hi.
Proof.
  unfold listing_result. split.
  - intros H.
    apply outcome_bind_ok in H as (listing & Hl & H).
    apply outcome_bind_ok in H as (files' & Hf & H).
    apply outcome_bind_ok in H as (lo' & Hlo & H).
    apply outcome_bind_ok in H as (hi' & Hhi & H).
    inversion H. subst. clear H.
    apply outcome_bind_ok in Hf as (entries & He & Hf).
    apply outcome_bind_ok in Hlo as (ints & Hi & Hlo).
    apply outcome_bind_ok in Hhi as (ints' & Hi' & Hhi).
    assert (ints' = ints) by congruence. subst.
    destruct (loads body); [|discriminate]. inversion Hl. subst.
    exists listing, entries, ints. repeat split; assumption.
  - intros (listing & entries & ints & Hl & He & Hf & Hi & Hlo & Hhi).
    rewrite Hl. cbn [of_option mbind outcome_bind].
    rewrite He. cbn [mbind outcome_bind]. rewrite Hf, Hi. cbn [mbind outcome_bind].
    rewrite Hlo, Hhi. reflexivity.
Qed.

Lemma listing_result_not_assertion years exts body :
  listing_result loads years exts body <> Raise AssertionError.
Proof.
  unfold listing_result.
  destruct (loads body) as [listing|]; [|discriminate]. cbn [of_option mbind outcome_bind].
  destruct (iterate listing) as [entries|e] eqn:Hi.
  2:{ destruct listing; simpl in Hi; inversion Hi; discriminate. }
  cbn [mbind outcome_bind].
  pose proof (filter_files_not_assertion years exts entries []) as Hf.
  destruct (filter_files years exts entries []) as [files|e].
  2:{ intros H. apply Hf. inversion H. reflexivity. }
  cbn [mbind outcome_bind].
  destruct (mapM year_int years) as [ints|e] eqn:Hm.
  2:{ apply mapM_year_int_raise_is in Hm. subst. discriminate. }
  cbn [mbind outcome_bind]. destruct ints as [|x ints]; [discriminate|]. discriminate.
Qed.



Lemma branch_result_not_assertion strptime utcnow body :
  branch_result loads strptime utcnow body <> Raise AssertionError.
Proof.
  unfold branch_result.
  destruct (loads body) as [v|]; [|discriminate]. cbn [of_option mbind outcome_bind].
  destruct (getitem v "commit") as [c1|e] eqn:H1; cbn [mbind outcome_bind].
  2:{ intros H. inversion H. subst. exact (getitem_not_assertion _ _ _ H1 eq_refl). }
  destruct (getitem c1 "commit") as [c2|e] eqn:H2; cbn [mbind outcome_bind].
  2:{ intros H. inversion H. subst. exact (getitem_not_assertion _ _ _ H2 eq_refl). }
  destruct (getitem c2 "author") as [a|e] eqn:H3; cbn [mbind outcome_bind].
  2:{ intros H. inversion H. subst. exact (getitem_not_assertion _ _ _ H3 eq_refl). }
  destruct (getitem a "date") as [d|e] eqn:H4; cbn [mbind outcome_bind].
  2:{ intros H. inversion H. subst. exact (getitem_not_assertion _ _ _ H4 eq_refl). }
  destruct d; try discriminate. destruct (strptime s); discriminate.
Qed.

End Results.



(** The examples of the specification. *)
Example name_matches_examples :
  name_matches [YInt 2019] [".csv"] "play_by_play_2019.csv" = true
  /\ name_matches [YInt 2018] [".csv"] "play_by_play_2019.csv" = false
  /\ name_matches [YInt 2020] [".parquet"] "data_2020.csv.gz" = false
  /\ name_matches [YInt 2020] [".gz"] "data_2020.csv.gz" = false
  /\ name_matches [YInt 2020] [".gz"; ".csv"] "data_2020.csv.gz" = false
  /\ name_matches [YInt 2020] [".csv"; ".gz"] "data_2020.csv.gz" = true.
Proof. repeat split. Qed.






(** A response with status 200 does not make the two operations succeed:
    the body can still fail to be what they expect, and an empty [years]
    fails at the log line. *)
Lemma status_200_can_still_fail :
  status_code {| status_code := 200; content := "listing" |} = 200
  /\ get_file_path_array (Fixtures.answer 200 "listing") Fixtures.loads [] default_branch
       default_file_extensions
     = MkEff [EvRequest (contents_request default_branch)]
         (Raise (ValueError "min() arg is an empty sequence"))
  /\ introduce_repository (Fixtures.answer 200 "not json") Fixtures.loads Fixtures.strptime
       Fixtures.utcnow default_branch
     = MkEff [EvRequest (branches_request default_branch)] (Raise JSONDecodeError).
Proof. repeat split. Qed.

(** C5: once a response has arrived, each of [introduce_repository] and
    [get_file_path_array] ends in the assertion error exactly when the status
    is not 200, and then nothing happens after the request; with status 200
    execution goes on to the parsing of the body, whose failure is then what
    the caller sees.  No step catches an error. *)
Theorem status_check
    (request : Request -> option Response) (loads : string -> option json)
    (strptime : string -> option datetime) (utcnow : datetime)
    (years : list Year) (branch : string) (file_extensions : ExtArg) :
  let intro := introduce_repository request loads strptime utcnow branch in
  let files := get_file_path_array request loads years branch file_extensions in
  (forall resp, request (branches_request branch) = Some resp ->
     (outcome intro = Raise AssertionError <-> status_code resp <> 200)
     /\ (status_code resp <> 200 -> trace intro = [EvRequest (branches_request branch)])
     /\ (status_code resp = 200 -> loads (content resp) = None ->
         outcome intro = Raise JSONDecodeError))
  /\ (forall resp, request (contents_request branch) = Some resp ->
     (outcome files = Raise AssertionError <-> status_code resp <> 200)
     /\ (status_code resp <> 200 -> trace files = [EvRequest (contents_request branch)])
     /\ (status_code resp = 200 -> loads (content resp) = None ->
         outcome files = Raise JSONDecodeError)).
Proof.
  cbv zeta. split; intros resp Hreq.
  - rewrite (introduce_repository_run _ _ _ _ _ _ Hreq).
    destruct (Z.eqb_spec (status_code resp) 200) as [Hst|Hst].
    + split; [|split].
      * split; [|tauto]. intros H. exfalso.
        pose proof (branch_result_not_assertion loads strptime utcnow (content resp)) as Hn.
        destruct (branch_result _ _ _ _) as [z|e]; [discriminate H|].
        apply Hn. inversion H. reflexivity.
      * tauto.
      * intros _ Hl. unfold branch_result. rewrite Hl. reflexivity.
    + split; [|split]; [tauto | reflexivity | tauto].
  - rewrite (get_file_path_array_run _ _ _ _ _ _ Hreq).
    destruct (Z.eqb_spec (status_code resp) 200) as [Hst|Hst].
    + split; [|split].
      * split; [|tauto]. intros H. exfalso.
        pose proof (listing_result_not_assertion loads years
                      (normalized_extensions file_extensions) (content resp)) as Hn.
        destruct (listing_result _ _ _ _) as [[[? ?] ?]|e]; [discriminate H|].
        apply Hn. inversion H. reflexivity.
      * tauto.
      * intros _ Hl. unfold listing_result. rewrite Hl. reflexivity.
    + split; [|split]; [tauto | reflexivity | tauto].
Qed.

Lemma status_check_witness :
  outcome (introduce_repository (Fixtures.answer 404 "branch") Fixtures.loads Fixtures.strptime
             Fixtures.utcnow "master") = Raise AssertionError
  /\ trace (get_file_path_array (Fixtures.answer 500 "listing") Fixtures.loads [YInt 2020]
              "master" (ExtStr ".parquet")) = [EvRequest (contents_request "master")]
  /\ outcome (get_file_path_array (Fixtures.answer 200 "not json") Fixtures.loads [YInt 2020]
                "master" (ExtStr ".parquet")) = Raise JSONDecodeError.
Proof.
  split; [|split].
  - apply (proj1 (status_check (Fixtures.answer 404 "branch") Fixtures.loads Fixtures.strptime
                    Fixtures.utcnow [] "master" (ExtStr ".parquet"))
             {| status_code := 404; content := "branch" |} eq_refl).
    discriminate.
  - apply (proj2 (status_check (Fixtures.answer 500 "listing") Fixtures.loads Fixtures.strptime
                    Fixtures.utcnow [YInt 2020] "master" (ExtStr ".parquet"))
             {| status_code := 500; content := "listing" |} eq_refl).
    discriminate.
  - apply (proj2 (status_check (Fixtures.answer 200 "not json") Fixtures.loads Fixtures.strptime
                    Fixtures.utcnow [YInt 2020] "master" (ExtStr ".parquet"))
             {| status_code := 200; content := "not json" |} eq_refl); reflexivity.
Defined.

(** With status 200 and a well-formed body [introduce_repository] logs the
    repository and the time since the last commit. *)
Example introduce_repository_logs :
  introduce_repository (Fixtures.answer 200 "branch") Fixtures.loads Fixtures.strptime
    Fixtures.utcnow "master"
  = MkEff [EvRequest (branches_request "master");
           EvLog (LogLoadingFrom "guga31bb" "nflfastR-data" "master");
           EvLog (LogLastCommit 86400000000)] (Ok tt).
Proof. reflexivity. Qed.

(** ** [generate_url] *)

Module GenerateUrlFacts.
Import PyStr PyStrFacts.

Lemma str_or_empty_default (value : option string) : str_or_empty value = default "" value.
Proof. destruct value as [[|c s]|]; reflexivity. Qed.

Lemma generate_url_unsplit netloc scheme path query fragment :
  generate_url netloc scheme path query fragment
  = UrlLib.urlunsplit (default "" scheme) (default "" netloc) (path_text path)
      (query_text query) (default "" fragment).
Proof.
  unfold generate_url, UrlLib.urlunparse. cbn [UrlLib.params UrlLib.scheme UrlLib.netloc
    UrlLib.path UrlLib.query UrlLib.fragment str_or_empty truthy].
  rewrite !str_or_empty_default. f_equal.
  - destruct path as [[s|l]|]; reflexivity.
  - destruct query as [[s|d]|]; reflexivity.
Qed.

Section Word.

(** A word none of whose characters is one of the delimiters [: / ? #]. *)
Variable w : string.
Hypothesis w_truthy : truthy w = true.
Hypothesis w_colon : has_char ":" w = false.
Hypothesis w_slash : has_char "/" w = false.
Hypothesis w_question : has_char "?" w = false.
Hypothesis w_hash : has_char "#" w = false.

Lemma contains_append_sep (c : ascii) (a b : string) :
  has_char c w = false -> contains w a = false -> contains w b = false ->
  contains w (a +:+ String c "" +:+ b) = false.
Proof.
  intros Hc Ha Hb. change (String c "" +:+ b) with (String c b).
  rewrite (contains_sep c w a b Hc), Ha, Hb. reflexivity.
Qed.

Lemma contains_netloc_path (netloc url : string) :
  contains w netloc = false -> contains w url = false ->
  contains w ("//" +:+ netloc +:+
              (if truthy url && negb (startswith "/" url) then "/" +:+ url else url)) = false.
Proof.
  intros Hn Hu.
  change ("//" +:+ ?s) with (String "/" (String "/" s)).
  rewrite !(contains_cons_sep "/" w) by assumption.
  destruct url as [|c url].
  - cbn [truthy andb]. rewrite append_nil_r. exact Hn.
  - cbn [truthy andb startswith]. destruct (decide ("/"%char = c)) as [<-|].
    + cbn [negb]. rewrite (contains_sep "/" w netloc url w_slash), Hn.
      rewrite (contains_cons_sep "/" w url w_truthy w_slash) in Hu. exact Hu.
    + cbn [negb]. change ("/" +:+ String c url) with (String "/" (String c url)).
      rewrite (contains_sep "/" w netloc (String c url) w_slash), Hn, Hu. reflexivity.
Qed.

(** Assembling components that do not contain the word gives a URL that
    does not contain it. *)
Lemma contains_urlunsplit (scheme netloc url query fragment : string) :
  contains w scheme = false -> contains w netloc = false -> contains w url = false ->
  contains w query = false -> contains w fragment = false ->
  contains w (UrlLib.urlunsplit scheme netloc url query fragment) = false.
Proof.
  intros Hs Hn Hu Hq Hf. unfold UrlLib.urlunsplit.
  set (url1 := if truthy netloc || _ then _ else url).
  assert (H1 : contains w url1 = false).
  { subst url1. destruct (truthy netloc || _); [|exact Hu].
    apply contains_netloc_path; assumption. }
  set (url2 := if truthy scheme then _ else url1).
  assert (H2 : contains w url2 = false).
  { subst url2. destruct (truthy scheme); [|exact H1].
    apply contains_append_sep; assumption. }
  set (url3 := if truthy query then _ else url2).
  assert (H3 : contains w url3 = false).
  { subst url3. destruct (truthy query); [|exact H2].
    apply contains_append_sep; assumption. }
  destruct (truthy fragment); [|exact H3].
  apply contains_append_sep; assumption.
Qed.

End Word.

End GenerateUrlFacts.

(** C7: an absent component of [generate_url] renders as the empty text:
    the URL is the one assembled from the given texts with the empty text in
    place of every [None], the same as when the empty text is passed
    explicitly; and when no given component contains [None] as a text, the
    URL does not contain it either. *)
Theorem generate_url_absent_components
    (netloc scheme : option string) (path : option PathArg) (query : option QueryArg)
    (fragment : option string) :
  let url := generate_url netloc scheme path query fragment in
  url = UrlLib.urlunsplit (default "" scheme) (default "" netloc) (path_text path)
          (query_text query) (default "" fragment)
  /\ url = generate_url (Some (default "" netloc)) (Some (default "" scheme))
             (Some (PathStr (path_text path))) (Some (QueryStr (query_text query)))
             (Some (default "" fragment))
  /\ (Forall (fun text => PyStr.contains "None" text = false)
        [default "" scheme; default "" netloc; path_text path; query_text query;
         default "" fragment] ->
      PyStr.contains "None" url = false).
Proof.
  cbv zeta. split; [|split].
  - apply GenerateUrlFacts.generate_url_unsplit.
  - rewrite !GenerateUrlFacts.generate_url_unsplit. reflexivity.
  - intros H. rewrite GenerateUrlFacts.generate_url_unsplit.
    apply Forall_cons_1 in H as [Hs H]. apply Forall_cons_1 in H as [Hn H].
    apply Forall_cons_1 in H as [Hp H]. apply Forall_cons_1 in H as [Hq H].
    apply Forall_cons_1 in H as [Hf _].
    apply GenerateUrlFacts.contains_urlunsplit; (reflexivity || assumption).
Qed.

Lemma generate_url_absent_components_witness :
  PyStr.contains "None" (generate_url (Some "api.github.com") None None None None) = false.
Proof.
  apply (proj2 (proj2 (generate_url_absent_components (Some "api.github.com")
                         None None None None))).
  repeat constructor.
Defined.

Example generate_url_examples :
  generate_url (Some "api.github.com") None None None None = "//api.github.com"
  /\ generate_url (Some "api.github.com") (Some "https") None None None = "https://api.github.com"
  /\ generate_url (Some "h") (Some "https") (Some (PathList ["a"; "b"; "c"])) None None
     = generate_url (Some "h") (Some "https") (Some (PathStr "a/b/c")) None None
  /\ generate_url None None None None None = "".
Proof. repeat split. Qed.

(** ** Percent-encoding and its inverse *)

Module QuoteFacts.
Import PyStr PyStrFacts UrlLib.

Ltac each_byte c :=
  destruct c as [[] [] [] [] [] [] [] []]; reflexivity.

Lemma replace_char_append (a b : ascii) (s t : string) :
  replace_char a b (s +:+ t) = replace_char a b s +:+ replace_char a b t.
Proof.
  induction s as [|x s IH]; [reflexivity|].
  rewrite append_cons. cbn [replace_char]. rewrite IH. reflexivity.
Qed.

Lemma quote_byte_spaced (c : ascii) :
  replace_char " " "+" (quote_byte true c) = plus_byte c.
Proof. each_byte c. Qed.

Lemma quote_byte_unspaced (c : ascii) :
  c <> " "%char -> quote_byte false c = plus_byte c.
Proof.
  intros Hc. unfold plus_byte. destruct (always_safe c) eqn:E.
  - unfold quote_byte. rewrite E. reflexivity.
  - rewrite bool_decide_eq_false_2 by exact Hc. reflexivity.
Qed.

Lemma quote_spaced (s : string) : replace_char " " "+" (quote true s) = plus_bytes s.
Proof.
  induction s as [|c s IH]; [reflexivity|].
  cbn [quote plus_bytes]. rewrite replace_char_append, quote_byte_spaced, IH. reflexivity.
Qed.

Lemma quote_unspaced (s : string) : has_char " " s = false -> quote false s = plus_bytes s.
Proof.
  induction s as [|c s IH]; [reflexivity|]. cbn [has_char quote plus_bytes].
  destruct (decide (c = " "%char)); [discriminate|]. intros H.
  rewrite (quote_byte_unspaced c) by assumption. rewrite (IH H). reflexivity.
Qed.

(** [quote_plus] works byte by byte. *)
Lemma quote_plus_bytes (s : string) : quote_plus s = plus_bytes s.
Proof.
  unfold quote_plus. destruct (has_char " " s) eqn:H.
  - apply quote_spaced.
  - apply quote_unspaced. exact H.
Qed.

Lemma unquote_plus_byte (c : ascii) (rest : string) :
  unquote (replace_char "+" " " (plus_byte c) +:+ rest) = String c (unquote rest).
Proof. each_byte c. Qed.

(** Decoding undoes encoding. *)
Lemma unquote_plus_quote_plus (s : string) : unquote_plus (quote_plus s) = s.
Proof.
  rewrite quote_plus_bytes. unfold unquote_plus.
  induction s as [|c s IH]; [reflexivity|].
  cbn [plus_bytes]. rewrite replace_char_append, unquote_plus_byte, IH. reflexivity.
Qed.

Lemma plus_byte_amp (c : ascii) : has_char "&" (plus_byte c) = false.
Proof. each_byte c. Qed.

Lemma plus_byte_eq (c : ascii) : has_char "=" (plus_byte c) = false.
Proof. each_byte c. Qed.

Lemma plus_byte_question (c : ascii) : has_char "?" (plus_byte c) = false.
Proof. each_byte c. Qed.

Lemma plus_byte_hash (c : ascii) : has_char "#" (plus_byte c) = false.
Proof. each_byte c. Qed.

Lemma quote_plus_free (x : ascii) (s : string) :
  (forall c, has_char x (plus_byte c) = false) -> has_char x (quote_plus s) = false.
Proof.
  intros Hx. rewrite quote_plus_bytes. induction s as [|c s IH]; [reflexivity|].
  cbn [plus_bytes]. rewrite has_char_append, Hx, IH. reflexivity.
Qed.

End QuoteFacts.

(** ** Splitting a query string *)

Module QueryFacts.
Import PyStr PyStrFacts UrlLib QuoteFacts.

Lemma split_once_sep (c : ascii) (a b : string) :
  has_char c a = false -> split_once c (a +:+ String c b) = (a, Some b).
Proof.
  induction a as [|x a IH]; intros H.
  - rewrite append_nil_l. cbn [split_once]. destruct (decide (c = c)); congruence.
  - rewrite append_cons. cbn [split_once has_char] in *.
    destruct (decide (x = c)); [discriminate|]. rewrite (IH H). reflexivity.
Qed.

Lemma split_once_none (c : ascii) (a : string) :
  has_char c a = false -> split_once c a = (a, None).
Proof.
  induction a as [|x a IH]; intros H; [reflexivity|].
  cbn [split_once has_char] in *.
  destruct (decide (x = c)); [discriminate|]. rewrite (IH H). reflexivity.
Qed.

Lemma split_sep (c : ascii) (a b : string) :
  has_char c a = false -> split c (a +:+ String c b) = a :: split c b.
Proof.
  induction a as [|x a IH]; intros H.
  - rewrite append_nil_l. cbn [split]. destruct (decide (c = c)); congruence.
  - rewrite append_cons. cbn [split has_char] in *.
    destruct (decide (x = c)); [discriminate|]. rewrite (IH H). reflexivity.
Qed.

Lemma split_join (c : ascii) (pieces : list string) :
  pieces <> [] -> Forall (fun piece => has_char c piece = false) pieces ->
  split c (join (String c "") pieces) = pieces.
Proof.
  intros Hne Hall. induction Hall as [|x l Hx Hl IH]; [congruence|].
  destruct l as [|y l].
  - cbn. apply split_no_sep. exact Hx.
  - rewrite join_cons by discriminate.
    change (String c "" +:+ ?s) with (String c s).
    rewrite (split_sep c x _ Hx). rewrite IH by discriminate. reflexivity.
Qed.

Lemma pair_text_amp (kv : string * string) : has_char "&" (pair_text kv) = false.
Proof.
  unfold pair_text. rewrite !has_char_append.
  rewrite !(quote_plus_free "&") by apply plus_byte_amp. reflexivity.
Qed.

Lemma pair_text_truthy (kv : string * string) : truthy (pair_text kv) = true.
Proof. unfold pair_text. rewrite !truthy_append. apply orb_true_r. Qed.

Lemma pair_text_split (kv : string * string) :
  split_once "=" (pair_text kv) = (quote_plus (fst kv), Some (quote_plus (snd kv))).
Proof.
  unfold pair_text. change ("=" +:+ ?s) with (String "=" s).
  apply split_once_sep. apply quote_plus_free, plus_byte_eq.
Qed.

Lemma pair_text_free (x : ascii) (kv : string * string) :
  x <> "="%char -> (forall c, has_char x (plus_byte c) = false) ->
  has_char x (pair_text kv) = false.
Proof.
  intros Heq Hx. unfold pair_text.
  rewrite !has_char_append, !(quote_plus_free x) by exact Hx. cbn.
  destruct (decide ("="%char = x)); [congruence | reflexivity].
Qed.

Lemma urlencode_pairs (d : dict) : urlencode d = join "&" (pair_text <$> d).
Proof. reflexivity. Qed.

Lemma urlencode_truthy (d : dict) : truthy (urlencode d) = negb (bool_decide (d = [])).
Proof.
  rewrite urlencode_pairs. destruct d as [|kv d]; [reflexivity|].
  rewrite fmap_cons. destruct d as [|kv' d].
  - apply pair_text_truthy.
  - rewrite fmap_cons, join_cons by discriminate.
    rewrite truthy_append, pair_text_truthy. reflexivity.
Qed.

Lemma urlencode_free (x : ascii) (d : dict) :
  x <> "&"%char -> x <> "="%char -> (forall c, has_char x (plus_byte c) = false) ->
  has_char x (urlencode d) = false.
Proof.
  intros Hamp Heq Hx. rewrite urlencode_pairs.
  induction d as [|kv d IH]; [reflexivity|].
  rewrite fmap_cons. destruct d as [|kv' d].
  - apply pair_text_free; assumption.
  - rewrite join_cons by discriminate.
    rewrite !has_char_append, (pair_text_free x kv Heq Hx), IH. cbn.
    destruct (decide ("&"%char = x)); [congruence | reflexivity].
Qed.

Lemma plus_byte_truthy (c : ascii) : truthy (plus_byte c) = true.
Proof. each_byte c. Qed.

Lemma quote_plus_truthy (s : string) : truthy (quote_plus s) = truthy s.
Proof.
  rewrite quote_plus_bytes. destruct s as [|c s]; [reflexivity|].
  cbn [plus_bytes]. rewrite truthy_append, plus_byte_truthy. reflexivity.
Qed.

(** Decoding an encoded mapping gives the mapping back, provided blank
    values are kept or there is none. *)
Lemma parse_qsl_urlencode (keep_blank_values : bool) (d : dict) :
  Forall (fun kv => truthy (snd kv) || keep_blank_values = true) d ->
  parse_qsl keep_blank_values (urlencode d) = d.
Proof.
  intros Hd. unfold parse_qsl. rewrite urlencode_truthy.
  destruct d as [|kv0 d0]; [reflexivity|]. remember (kv0 :: d0) as d eqn:Ed.
  rewrite bool_decide_eq_false_2 by (subst d; discriminate). cbn [negb].
  rewrite urlencode_pairs, split_join.
  - clear Ed. induction Hd as [|[k v] d Hkv _ IH]; [reflexivity|].
    rewrite fmap_cons. cbn [mbind list_bind]. change (list_bind ?f ?l) with (l ≫= f).
    rewrite IH. rewrite pair_text_truthy, pair_text_split. cbn [negb fst snd] in *.
    rewrite quote_plus_truthy, Hkv, !unquote_plus_quote_plus. reflexivity.
  - subst d. discriminate.
  - apply Forall_fmap, Forall_forall. intros kv _. apply pair_text_amp.
Qed.

Lemma query_of_urlunsplit (scheme netloc url query fragment : string) :
  has_char "?" scheme = false -> has_char "#" scheme = false ->
  has_char "?" netloc = false -> has_char "#" netloc = false ->
  has_char "?" url = false -> has_char "#" url = false ->
  has_char "#" query = false ->
  query_of (urlunsplit scheme netloc url query fragment) = query.
Proof.
  intros Hs1 Hs2 Hn1 Hn2 Hu1 Hu2 Hq. unfold urlunsplit.
  set (url1 := if truthy netloc || _ then _ else url).
  assert (H1 : has_char "?" url1 = false /\ has_char "#" url1 = false).
  { subst url1. destruct (truthy netloc || _); [|split; assumption].
    destruct (truthy url && _); rewrite !has_char_append, ?Hn1, ?Hn2, ?Hu1, ?Hu2;
      split; reflexivity. }
  destruct H1 as [H1q H1h].
  set (url2 := if truthy scheme then _ else url1).
  assert (H2 : has_char "?" url2 = false /\ has_char "#" url2 = false).
  { subst url2. destruct (truthy scheme); [|split; assumption].
    rewrite !has_char_append, ?Hs1, ?Hs2, ?H1q, ?H1h. split; reflexivity. }
  destruct H2 as [H2q H2h]. clearbody url2. clear url1 H1q H1h.
  set (url3 := if truthy query then _ else url2).
  assert (H3 : has_char "#" url3 = false
               /\ split_once "?" url3 = (url2, if truthy query then Some query else None)).
  { subst url3. destruct (truthy query).
    - change ("?" +:+ query) with (String "?" query). split.
      + rewrite has_char_append, H2h. cbn. exact Hq.
      + apply split_once_sep. exact H2q.
    - split; [exact H2h | apply split_once_none; exact H2q]. }
  destruct H3 as [H3h H3s]. unfold query_of.
  assert (Hfst : fst (split_once "#" (if truthy fragment then url3 +:+ "#" +:+ fragment
                                      else url3)) = url3).
  { destruct (truthy fragment).
    - change ("#" +:+ fragment) with (String "#" fragment).
      rewrite (split_once_sep "#" url3 fragment H3h). reflexivity.
    - rewrite (split_once_none "#" url3 H3h). reflexivity. }
  rewrite Hfst, H3s. destruct query; reflexivity.
Qed.

End QueryFacts.



Example generate_url_query_example :
  let url := generate_url (Some "api.github.com") (Some "https")
               (Some (PathList ["repos"; "data"]))
               (Some (QueryDict [("ref", "master"); ("q", "a b&c=d"); ("blank", "")]))
               (Some "top") in
  url = "https://api.github.com/repos/data?ref=master&q=a+b%26c%3Dd&blank=#top"
  /\ UrlLib.parse_qsl true (UrlLib.query_of url)
     = [("ref", "master"); ("q", "a b&c=d"); ("blank", "")].
Proof. split; reflexivity. Qed.

(** With the default [keep_blank_values=False] of [parse_qsl] the round trip
    holds for mappings without blank values, and a blank value is dropped. *)
Lemma parse_qsl_default_round_trip (d : dict) :
  Forall (fun kv => PyStr.truthy (snd kv) = true) d ->
  UrlLib.parse_qsl false (UrlLib.urlencode d) = d.
Proof.
  intros H. apply QueryFacts.parse_qsl_urlencode.
  apply (Forall_impl _ _ _ H). intros kv ->. reflexivity.
Qed.

Example parse_qsl_default_drops_blank :
  UrlLib.parse_qsl false (UrlLib.urlencode [("a", "")]) = [].
Proof. reflexivity. Qed.

(** * Further properties of the module *)

(** ** [generate_url] and [make_call] *)

(** X1: with a non-empty netloc, a non-empty path is joined to it by exactly
    one slash whether or not the path brings its own: the path [p] and the
    path [/p] give the same URL. *)
Theorem generate_url_leading_slash
    (netloc : string) (scheme : option string) (p : string) (query : option QueryArg)
    (fragment : option string) :
  PyStr.truthy netloc = true -> PyStr.truthy p = true -> PyStr.startswith "/" p = false ->
  generate_url (Some netloc) scheme (Some (PathStr p)) query fragment
  = generate_url (Some netloc) scheme (Some (PathStr ("/" +:+ p))) query fragment.
Proof.
  intros Hn Hp Hs. rewrite !GenerateUrlFacts.generate_url_unsplit.
  change (default "" (Some netloc)) with netloc. cbn [path_text].
  unfold UrlLib.urlunsplit. rewrite Hn. cbn [orb].
  rewrite Hp, Hs. cbn [andb negb].
  change (PyStr.truthy ("/" +:+ p)) with true.
  change (PyStr.startswith "/" ("/" +:+ p)) with true. reflexivity.
Qed.

Lemma generate_url_leading_slash_witness :
  generate_url (Some "api.github.com") (Some "https") (Some (PathStr "repos/a")) None None
  = generate_url (Some "api.github.com") (Some "https") (Some (PathStr "/repos/a")) None None.
Proof.
  apply (generate_url_leading_slash "api.github.com" (Some "https") "repos/a" None None);
    reflexivity.
Defined.

(** X2: two different mappings never give the same URL: under the same
    scheme, netloc and path free of [?] and [#], and whatever the fragments,
    the URLs built from them differ; the encoding of the query loses
    nothing. *)
Theorem generate_url_query_injective
    (netloc scheme : option string) (path : option PathArg) (d1 d2 : dict)
    (fragment1 fragment2 : option string) :
  Forall (fun text => PyStr.has_char "?" text = false /\ PyStr.has_char "#" text = false)
    [default "" scheme; default "" netloc; path_text path] ->
  d1 <> d2 ->
  generate_url netloc scheme path (Some (QueryDict d1)) fragment1
  <> generate_url netloc scheme path (Some (QueryDict d2)) fragment2.
Proof.
  intros H Hne Heq. apply Hne.
  apply Forall_cons_1 in H as [[Hs1 Hs2] H]. apply Forall_cons_1 in H as [[Hn1 Hn2] H].
  apply Forall_cons_1 in H as [[Hp1 Hp2] _].
  apply (f_equal UrlLib.query_of) in Heq.
  rewrite !GenerateUrlFacts.generate_url_unsplit in Heq. cbn [query_text] in Heq.
  rewrite !QueryFacts.query_of_urlunsplit in Heq; try assumption;
    try (apply QueryFacts.urlencode_free;
         [discriminate | discriminate | apply QuoteFacts.plus_byte_hash]).
  apply (f_equal (UrlLib.parse_qsl true)) in Heq.
  rewrite !QueryFacts.parse_qsl_urlencode in Heq;
    try (apply Forall_forall; intros kv _; apply orb_true_r).
  exact Heq.
Qed.

(** A space and a plus sign in a value stay apart. *)
Lemma generate_url_query_injective_witness :
  generate_url (Some "api.github.com") (Some "https") (Some (PathList ["repos"; "data"]))
    (Some (QueryDict [("q", "a b")])) None
  <> generate_url (Some "api.github.com") (Some "https") (Some (PathList ["repos"; "data"]))
       (Some (QueryDict [("q", "a+b")])) (Some "top").
Proof.
  apply (generate_url_query_injective (Some "api.github.com") (Some "https")
           (Some (PathList ["repos"; "data"])) [("q", "a b")] [("q", "a+b")]
           None (Some "top")).
  - repeat constructor.
  - discriminate.
Defined.

(** Given a target, [make_call] sends exactly one request, carrying the
    method, params, headers, data and extra options unchanged, and hands
    back what the transport answers whatever the status code; the status is
    never looked at. *)
Theorem make_call_passes_through
    (request : Request -> option Response) (method : string) (url netloc : option string)
    (params : option dict) (data : option Payload) (headers : option dict)
    (scheme : option string) (path : option PathArg) (query : option QueryArg)
    (fragment : option string) (kwargs : dict) :
  is_Some url \/ is_Some netloc ->
  exists r,
    make_call request method url netloc params data headers scheme path query fragment kwargs
    = MkEff [EvRequest r] (of_option RequestException (request r))
    /\ req_method r = method /\ req_params r = params /\ req_headers r = headers
    /\ req_data r = data /\ req_kwargs r = kwargs
    /\ req_url r = match url with
                   | Some u => u
                   | None => generate_url netloc scheme path query fragment
                   end.
Proof.
  intros Htarget. destruct url as [u|].
  - eexists. rewrite make_call_with_url. unfold do_request. repeat split.
  - destruct netloc as [h|].
    + eexists. rewrite make_call_with_netloc. unfold do_request. repeat split.
    + destruct Htarget as [[? H]|[? H]]; discriminate.
Qed.

Lemma make_call_passes_through_witness :
  exists r,
    make_call (Fixtures.answer 503 "busy") "post" (Some "https://example.org/x") None
      (Some [("a", "1")]) (Some (PayloadDict [("k", "v")])) None None None None None
      [("timeout", "5")]
    = MkEff [EvRequest r] (of_option RequestException (Fixtures.answer 503 "busy" r))
    /\ req_method r = "post" /\ req_params r = Some [("a", "1")] /\ req_headers r = None
    /\ req_data r = Some (PayloadDict [("k", "v")]) /\ req_kwargs r = [("timeout", "5")]
    /\ req_url r = "https://example.org/x".
Proof.
  apply (make_call_passes_through (Fixtures.answer 503 "busy") "post"
           (Some "https://example.org/x") None (Some [("a", "1")])
           (Some (PayloadDict [("k", "v")])) None None None None None [("timeout", "5")]).
  left. eexists. reflexivity.
Defined.

(** ** [introduce_repository] *)

Lemma branch_result_ok (loads : string -> option json) (strptime : string -> option datetime)
    (utcnow : datetime) (body : string) (elapsed : Z) :
  branch_result loads strptime utcnow body = Ok elapsed
  <-> exists v c1 c2 a date d,
        loads body = Some v /\ getitem v "commit" = Ok c1 /\ getitem c1 "commit" = Ok c2
        /\ getitem c2 "author" = Ok a /\ getitem a "date" = Ok (JStr date)
        /\ strptime date = Some d /\ elapsed = wall utcnow - wall d.
Proof.
  unfold branch_result. split.
  - intros H.
    apply outcome_bind_ok in H as (v & Hv & H).
    apply outcome_bind_ok in H as (dt & Hd & H).
    apply outcome_bind_ok in H as (d & Hs & H). inversion H. subst. clear H.
    apply outcome_bind_ok in Hd as (c1 & H1 & Hd).
    apply outcome_bind_ok in Hd as (c2 & H2 & Hd).
    apply outcome_bind_ok in Hd as (a & H3 & H4).
    destruct (loads body) as [v'|]; [|discriminate]. inversion Hv. subst.
    destruct dt; try discriminate. destruct (strptime s) as [d'|] eqn:Hp; [|discriminate].
    inversion Hs. subst. exists v, c1, c2, a, s, d. repeat split; assumption.
  - intros (v & c1 & c2 & a & date & d & Hv & H1 & H2 & H3 & H4 & Hp & ->).
    rewrite Hv. cbn [of_option mbind outcome_bind].
    rewrite H1. cbn [mbind outcome_bind]. rewrite H2. cbn [mbind outcome_bind].
    rewrite H3. cbn [mbind outcome_bind]. rewrite H4. cbn [mbind outcome_bind].
    rewrite Hp. reflexivity.
Qed.

(** X3: [introduce_repository] sends one request, to the branches endpoint
    of the repository with the branch text appended as it is, and then
    either raises with nothing logged, or logs its two lines and returns.
    It returns exactly when the answer has status 200 and a body that parses
    to nested objects holding a text under commit, commit, author, date that
    [strptime] accepts; the time it logs is the clock minus the wall-clock
    fields of that date, its UTC offset dropped. *)
Theorem introduce_repository_runs
    (request : Request -> option Response) (loads : string -> option json)
    (strptime : string -> option datetime) (utcnow : datetime) (branch : string) :
  let run := introduce_repository request loads strptime utcnow branch in
  let sent := EvRequest (branches_request branch) in
  let first_line := EvLog (LogLoadingFrom "guga31bb" "nflfastR-data" branch) in
  ((exists e, run = MkEff [sent] (Raise e))
   \/ (exists elapsed, run = MkEff [sent; first_line; EvLog (LogLastCommit elapsed)] (Ok tt)))
  /\ (forall elapsed,
        run = MkEff [sent; first_line; EvLog (LogLastCommit elapsed)] (Ok tt)
        <-> exists resp v c1 c2 a date d,
              request (branches_request branch) = Some resp /\ status_code resp = 200
              /\ loads (content resp) = Some v
              /\ getitem v "commit" = Ok c1 /\ getitem c1 "commit" = Ok c2
              /\ getitem c2 "author" = Ok a /\ getitem a "date" = Ok (JStr date)
              /\ strptime date = Some d /\ elapsed = wall utcnow - wall d).
Proof.
  cbv zeta. destruct (request (branches_request branch)) as [resp|] eqn:Hreq.
  - rewrite (introduce_repository_run _ _ _ _ _ _ Hreq).
    destruct (Z.eqb_spec (status_code resp) 200) as [Hst|Hst].
    + destruct (branch_result loads strptime utcnow (content resp)) as [z|e] eqn:Hres.
      * split; [right; eauto|]. intros elapsed. split.
        -- intros H. inversion H. subst.
           apply branch_result_ok in Hres as (v & c1 & c2 & a & date & d & Hres).
           exists resp, v, c1, c2, a, date, d. tauto.
        -- intros (resp' & v & c1 & c2 & a & date & d & Hr & _ & Hrest).
           inversion Hr. subst resp'.
           assert (Hok : branch_result loads strptime utcnow (content resp) = Ok elapsed).
           { apply branch_result_ok. exists v, c1, c2, a, date, d. exact Hrest. }
           rewrite Hres in Hok. inversion Hok. reflexivity.
      * split; [left; eauto|]. intros elapsed. split; [discriminate|].
        intros (resp' & v & c1 & c2 & a & date & d & Hr & _ & Hrest).
        inversion Hr. subst resp'.
        assert (Hok : branch_result loads strptime utcnow (content resp) = Ok elapsed).
        { apply branch_result_ok. exists v, c1, c2, a, date, d. exact Hrest. }
        rewrite Hres in Hok. discriminate.
    + split; [left; eauto|]. intros elapsed. split; [discriminate|].
      intros (resp' & v & c1 & c2 & a & date & d & Hr & Hs & _).
      inversion Hr. subst resp'. contradiction.
  - rewrite (introduce_repository_no_response _ _ _ _ _ Hreq).
    split; [left; eauto|]. intros elapsed. split; [discriminate|].
    intros (resp' & v & c1 & c2 & a & date & d & Hr & _). discriminate.
Qed.

(** A commit at 10:00 read a day later, its offset of five hours ignored. *)
Lemma introduce_repository_runs_witness :
  introduce_repository (Fixtures.answer 200 "branch") Fixtures.loads
    (fun _ => Some {| wall := 1604311200000000; tzinfo := Some 18000 |})
    Fixtures.utcnow "dev/x"
  = MkEff [EvRequest (branches_request "dev/x");
           EvLog (LogLoadingFrom "guga31bb" "nflfastR-data" "dev/x");
           EvLog (LogLastCommit 86400000000)] (Ok tt).
Proof.
  apply (proj2 (proj2 (introduce_repository_runs (Fixtures.answer 200 "branch") Fixtures.loads
                         (fun _ => Some {| wall := 1604311200000000; tzinfo := Some 18000 |})
                         Fixtures.utcnow "dev/x") 86400000000)).
  eexists {| status_code := 200; content := "branch" |}, _, _, _, _, _, _.
  repeat split; reflexivity.
Defined.

(** ** [get_file_path_array]: the log line and malformed listings *)

Lemma foldl_min_spec (l : list Z) :
  forall x, foldl Z.min x l ∈ x :: l /\ Forall (fun n => foldl Z.min x l <= n) (x :: l).
Proof.
  induction l as [|y l IH]; intros x.
  - cbn. split; [left | repeat constructor; lia].
  - cbn [foldl]. destruct (IH (Z.min x y)) as [Hin Hle].
    apply Forall_cons_1 in Hle as [Hm Hl]. split.
    + apply elem_of_cons in Hin as [->|Hin].
      * destruct (Z.min_spec x y) as [[_ ->]|[_ ->]]; [left | right; left].
      * right. right. exact Hin.
    + repeat constructor; [lia | lia | exact Hl].
Qed.

Lemma foldl_max_spec (l : list Z) :
  forall x, foldl Z.max x l ∈ x :: l /\ Forall (fun n => n <= foldl Z.max x l) (x :: l).
Proof.
  induction l as [|y l IH]; intros x.
  - cbn. split; [left | repeat constructor; lia].
  - cbn [foldl]. destruct (IH (Z.max x y)) as [Hin Hle].
    apply Forall_cons_1 in Hle as [Hm Hl]. split.
    + apply elem_of_cons in Hin as [->|Hin].
      * destruct (Z.max_spec x y) as [[_ ->]|[_ ->]]; [right; left | left].
      * right. right. exact Hin.
    + repeat constructor; [lia | lia | exact Hl].
Qed.

Lemma py_min_spec (ints : list Z) (lo : Z) :
  py_min ints = Ok lo -> lo ∈ ints /\ Forall (fun n => lo <= n) ints.
Proof.
  destruct ints as [|x l]; [discriminate|]. intros H. inversion H. apply foldl_min_spec.
Qed.

Lemma py_max_spec (ints : list Z) (hi : Z) :
  py_max ints = Ok hi -> hi ∈ ints /\ Forall (fun n => n <= hi) ints.
Proof.
  destruct ints as [|x l]; [discriminate|]. intros H. inversion H. apply foldl_max_spec.
Qed.


Lemma filter_files_app (years : list Year) (extensions : list string) (l1 l2 : list json) :
  forall acc,
    filter_files years extensions (l1 ++ l2) acc
    = filter_files years extensions l1 acc ≫= filter_files years extensions l2.
Proof.
  induction l1 as [|file_dict l1 IH]; intros acc; [reflexivity|].
  cbn [app filter_files].
  destruct (getitem file_dict "name") as [v|e]; [|reflexivity]. cbn [mbind outcome_bind].
  destruct (Path v) as [file_path|e]; [|reflexivity]. cbn [mbind outcome_bind].
  match goal with |- context [if ?b then _ else _] => destruct b end; [|apply IH].
  destruct (getitem file_dict "download_url") as [u|e]; [|reflexivity].
  cbn [mbind outcome_bind]. apply IH.
Qed.

Lemma get_file_path_array_listing_error
    (request : Request -> option Response) (loads : string -> option json)
    (years : list Year) (branch : string) (file_extensions : ExtArg)
    (resp : Response) (body : json) (e : exn) :
  request (contents_request branch) = Some resp -> status_code resp = 200 ->
  loads (content resp) = Some body ->
  (entries ← iterate body;
   filter_files years (normalized_extensions file_extensions) entries []) = Raise e ->
  get_file_path_array request loads years branch file_extensions
  = MkEff [EvRequest (contents_request branch)] (Raise e).
Proof.
  intros Hreq Hst Hl He.
  rewrite (get_file_path_array_run _ _ _ _ _ _ Hreq), Hst. cbn [Z.eqb Pos.eqb].
  unfold listing_result. rewrite Hl. cbn [of_option mbind outcome_bind].
  change (outcome_bind _ _ ?k ?m) with (m ≫= k) in *. rewrite He. reflexivity.
Qed.

Example iterate_empty_object_and_text :
  iterate (JObj ∅) = Ok [] /\ iterate (JStr "") = Ok [].
Proof. split; reflexivity. Qed.

(** X5: when the body of a 200 answer parses to something other than an
    array (the Contents API answers with an object for a path that is a
    file), the call raises [TypeError] and logs nothing; the empty object
    and the empty text are set aside, as they iterate like an empty
    listing. *)
Theorem get_file_path_array_body_not_array
    (request : Request -> option Response) (loads : string -> option json)
    (years : list Year) (branch : string) (file_extensions : ExtArg)
    (resp : Response) (body : json) :
  request (contents_request branch) = Some resp -> status_code resp = 200 ->
  loads (content resp) = Some body ->
  (forall items, body <> JArr items) -> body <> JObj ∅ -> body <> JStr "" ->
  get_file_path_array request loads years branch file_extensions
  = MkEff [EvRequest (contents_request branch)] (Raise TypeError).
Proof.
  intros Hreq Hst Hl Harr Hobj Hstr.
  apply (get_file_path_array_listing_error _ _ _ _ _ resp body TypeError Hreq Hst Hl).
  destruct body as [| | | |s|items|fields]; try reflexivity.
  - destruct s as [|c s]; [congruence | reflexivity].
  - exfalso. exact (Harr items eq_refl).
  - cbn [iterate mbind outcome_bind].
    destruct (map_to_list fields) as [|[k v] l] eqn:Hm.
    + apply map_to_list_empty_iff in Hm. congruence.
    + reflexivity.
Qed.

Lemma get_file_path_array_body_not_array_witness :
  get_file_path_array (Fixtures.answer 200 "file") Worlds.loads [YInt 2020] "master"
    (ExtStr ".parquet")
  = MkEff [EvRequest (contents_request "master")] (Raise TypeError).
Proof.
  apply (get_file_path_array_body_not_array (Fixtures.answer 200 "file") Worlds.loads
           [YInt 2020] "master" (ExtStr ".parquet")
           {| status_code := 200; content := "file" |} Worlds.file_body);
    try reflexivity; discriminate.
Defined.

(** X6: an entry of the listing without a text under [name] stops the call
    at that entry, with [KeyError] for an object that lacks the key and
    [TypeError] otherwise, whether or not any year or extension could have
    matched it; nothing is logged and the URLs collected so far are lost. *)
Theorem get_file_path_array_nameless_entry
    (request : Request -> option Response) (loads : string -> option json)
    (years : list Year) (branch : string) (file_extensions : ExtArg)
    (resp : Response) (before after : list json) (entry : json) (collected : list json) :
  request (contents_request branch) = Some resp -> status_code resp = 200 ->
  loads (content resp) = Some (JArr (before ++ entry :: after)) ->
  filter_files years (normalized_extensions file_extensions) before [] = Ok collected ->
  entry_name entry = None ->
  exists e,
    get_file_path_array request loads years branch file_extensions
    = MkEff [EvRequest (contents_request branch)] (Raise e)
    /\ (e = TypeError \/ e = KeyError "name")
    /\ (forall fields, entry = JObj fields -> fields !! "name" = None -> e = KeyError "name").
Proof.
  intros Hreq Hst Hl Hbefore Hname.
  assert (Hentry : exists e,
             filter_files years (normalized_extensions file_extensions) (entry :: after) collected
             = Raise e
             /\ (e = TypeError \/ e = KeyError "name")
             /\ (forall fields, entry = JObj fields -> fields !! "name" = None ->
                 e = KeyError "name")).
  { unfold entry_name in Hname. cbn [filter_files].
    destruct entry as [| | | | | |fields];
      try (exists TypeError; split; [reflexivity|]; split; [left; reflexivity|];
           intros ? H; discriminate H).
    cbn [getitem] in *. destruct (fields !! "name") as [v|] eqn:Hv; cbn [of_option] in *.
    - destruct v; try discriminate Hname;
        (exists TypeError; split; [reflexivity|]; split; [left; reflexivity|];
         intros ? H Hnone; inversion H; subst; congruence).
    - exists (KeyError "name"). split; [reflexivity|]. split; [right; reflexivity|].
      intros; reflexivity. }
  destruct Hentry as (e & He & Hkind & Hkey). exists e. split; [|split; assumption].
  apply (get_file_path_array_listing_error _ _ _ _ _ resp _ e Hreq Hst Hl).
  cbn [iterate mbind outcome_bind]. rewrite filter_files_app, Hbefore. exact He.
Qed.

Lemma get_file_path_array_nameless_entry_witness :
  exists e,
    get_file_path_array (Fixtures.answer 200 "nameless") Worlds.loads [YInt 2019] "master"
      (ExtStr ".parquet")
    = MkEff [EvRequest (contents_request "master")] (Raise e)
    /\ (e = TypeError \/ e = KeyError "name")
    /\ (forall fields,
          JObj {[ "download_url" := JStr "https://raw.example/x.parquet" ]} = JObj fields ->
          fields !! "name" = None -> e = KeyError "name").
Proof.
  apply (get_file_path_array_nameless_entry (Fixtures.answer 200 "nameless") Worlds.loads
           [YInt 2019] "master" (ExtStr ".parquet")
           {| status_code := 200; content := "nameless" |}
           [Fixtures.entry "pbp_2019.parquet" "https://raw.example/pbp_2019.parquet"]
           [Fixtures.entry "pbp_2020.parquet" "https://raw.example/pbp_2020.parquet"]
           (JObj {[ "download_url" := JStr "https://raw.example/x.parquet" ]})
           [JStr "https://raw.example/pbp_2019.parquet"]); reflexivity.
Defined.

(** ** [get_file_path_array]: how the result depends on the years and on
    the extension filter *)

Lemma get_file_path_array_ok_inv
    (request : Request -> option Response) (loads : string -> option json)
    (years : list Year) (branch : string) (file_extensions : ExtArg) (files : list json) :
  outcome (get_file_path_array request loads years branch file_extensions) = Ok files ->
  exists resp listing entries ints lo hi,
    request (contents_request branch) = Some resp /\ status_code resp = 200
    /\ loads (content resp) = Some listing /\ iterate listing = Ok entries
    /\ filter_files years (normalized_extensions file_extensions) entries [] = Ok files
    /\ mapM year_int years = Ok ints /\ py_min ints = Ok lo /\ py_max ints = Ok hi
    /\ get_file_path_array request loads years branch file_extensions
       = MkEff [EvRequest (contents_request branch);
                EvLog (LogYearsReturned (length files) lo hi)] (Ok files).
Proof.
  intros H. destruct (request (contents_request branch)) as [resp|] eqn:Hreq.
  2:{ rewrite (get_file_path_array_no_response _ _ _ _ _ Hreq) in H. discriminate. }
  rewrite (get_file_path_array_run _ _ _ _ _ _ Hreq) in *.
  destruct (status_code resp =? 200) eqn:Hst; [|discriminate].
  destruct (listing_result _ _ _ _) as [[[files' lo] hi]|e] eqn:Hres; [|discriminate].
  inversion H. subst. apply Z.eqb_eq in Hst.
  apply listing_result_ok in Hres as (listing & entries & ints & Hres).
  exists resp, listing, entries, ints, lo, hi. tauto.
Qed.

Lemma filter_files_urls (years : list Year) (extensions : list string)
    (entries files : list json) :
  filter_files years extensions entries [] = Ok files ->
  Forall (fun year => exists n, year_int year = Ok n) years ->
  files = url_of <$> List.filter (entry_matches years extensions) entries.
Proof.
  intros Hf Hyears.
  destruct (filter_files_ok years extensions entries Hyears [] files Hf)
    as (_ & urls & -> & Hurls).
  cbn [app]. clear Hf. revert urls Hurls.
  induction (List.filter (entry_matches years extensions) entries) as [|e l IH];
    intros urls Hurls.
  - destruct urls; [reflexivity | discriminate].
  - destruct urls as [|u urls]; [discriminate|].
    rewrite !fmap_cons in Hurls. inversion Hurls as [[Hu Hrest]].
    rewrite fmap_cons, <- (IH urls Hrest). unfold url_of. rewrite Hu. reflexivity.
Qed.

Lemma filter_sublist_implied {A} (f g : A -> bool) (l : list A) :
  (forall x, f x = true -> g x = true) ->
  List.filter f l `sublist_of` List.filter g l.
Proof.
  intros Hfg. induction l as [|x l IH]; [constructor|]. cbn [List.filter].
  destruct (f x) eqn:Hf.
  - rewrite (Hfg x Hf). apply sublist_skip, IH.
  - destruct (g x); [apply sublist_cons, IH | exact IH].
Qed.

Lemma name_matches_more_years (years more : list Year) (extensions : list string)
    (name : string) :
  name_matches years extensions name = true ->
  name_matches (years ++ more) extensions name = true.
Proof.
  unfold name_matches. rewrite existsb_app.
  intros H. apply andb_true_iff in H as [-> ->]. reflexivity.
Qed.

(** X7: asking for more years never loses a file: in the same world, what
    the call returns for [years] is, in the same order, part of what it
    returns for [years] followed by further years. *)
Theorem get_file_path_array_more_years
    (request : Request -> option Response) (loads : string -> option json)
    (years more : list Year) (branch : string) (file_extensions : ExtArg)
    (files files' : list json) :
  outcome (get_file_path_array request loads years branch file_extensions) = Ok files ->
  outcome (get_file_path_array request loads (years ++ more) branch file_extensions)
  = Ok files' ->
  files `sublist_of` files'.
Proof.
  intros H H'.
  apply get_file_path_array_ok_inv in H
    as (resp & listing & entries & ints & lo & hi & Hreq & _ & Hl & He & Hf & Hi & _).
  apply get_file_path_array_ok_inv in H'
    as (resp' & listing' & entries' & ints' & lo' & hi' & Hreq' & _ & Hl' & He' & Hf' & Hi' & _).
  assert (resp' = resp) by congruence. subst resp'.
  assert (listing' = listing) by congruence. subst listing'.
  assert (entries' = entries) by congruence. subst entries'.
  apply YearConversion.mapM_year_int_ok in Hi as [Hyears _].
  apply YearConversion.mapM_year_int_ok in Hi' as [Hyears' _].
  rewrite (filter_files_urls _ _ _ _ Hf Hyears), (filter_files_urls _ _ _ _ Hf' Hyears').
  apply fmap_sublist, filter_sublist_implied.
  intros e. unfold entry_matches. destruct (entry_name e) as [name|]; [|discriminate].
  apply name_matches_more_years.
Qed.

Lemma get_file_path_array_more_years_witness :
  [JStr "https://raw.example/pbp_2020.parquet"]
  `sublist_of` [JStr "https://raw.example/pbp_2019.parquet";
                JStr "https://raw.example/pbp_2020.parquet"].
Proof.
  apply (get_file_path_array_more_years (Fixtures.answer 200 "listing") Fixtures.loads
           [YInt 2020] [YStr "2019"] "master" (ExtStr ".parquet")); reflexivity.
Defined.

Lemma filter_files_same_matches (years years' : list Year) (extensions : list string) :
  (forall text,
     existsb (fun year => PyStr.contains (year_str year) text) years
     = existsb (fun year => PyStr.contains (year_str year) text) years') ->
  forall entries acc,
    filter_files years extensions entries acc = filter_files years' extensions entries acc.
Proof.
  intros Hsame. induction entries as [|file_dict rest IH]; intros acc; [reflexivity|].
  cbn [filter_files].
  destruct (getitem file_dict "name") as [v|e]; [|reflexivity]. cbn [mbind outcome_bind].
  destruct (Path v) as [file_path|e]; [|reflexivity]. cbn [mbind outcome_bind].
  rewrite Hsame.
  match goal with |- context [if ?b then _ else _] => destruct b end; [|apply IH].
  destruct (getitem file_dict "download_url") as [u|e]; [|reflexivity].
  cbn [mbind outcome_bind]. apply IH.
Qed.

Lemma existsb_same_elements {A} (f : A -> bool) (l l' : list A) :
  (forall x, x ∈ l <-> x ∈ l') -> existsb f l = existsb f l'.
Proof.
  intros Hsame. apply eq_true_iff_eq. rewrite !existsb_exists.
  split; intros (x & Hin & Hx); exists x; (split; [|exact Hx]);
    apply list_elem_of_In; apply list_elem_of_In in Hin; apply Hsame; exact Hin.
Qed.

Lemma mapM_year_int_elements (years : list Year) (ints : list Z) :
  mapM year_int years = Ok ints ->
  forall n, n ∈ ints <-> exists year, year ∈ years /\ year_int year = Ok n.
Proof.
  revert ints. induction years as [|year years IH]; intros ints H n.
  - inversion H. split; [intros Hin; inversion Hin|].
    intros (y & Hin & _). inversion Hin.
  - rewrite YearConversion.mapM_year_int_cons in H.
    apply outcome_bind_ok in H as (m & Hm & H).
    apply outcome_bind_ok in H as (rest & Hrest & H). inversion H. subst.
    rewrite elem_of_cons, (IH rest Hrest n). split.
    + intros [->|(y & Hin & Hy)]; [exists year | exists y];
        (split; [|assumption]); [left | right; exact Hin].
    + intros (y & Hin & Hy). apply elem_of_cons in Hin as [->|Hin].
      * left. congruence.
      * right. eauto.
Qed.

(** X8: the result and the log line depend only on which years are
    requested, not on their order or on repetitions: when the call returns
    for [years], it does exactly the same for any [years'] with the same
    elements. *)
Theorem get_file_path_array_years_as_set
    (request : Request -> option Response) (loads : string -> option json)
    (years years' : list Year) (branch : string) (file_extensions : ExtArg)
    (files : list json) :
  (forall year, year ∈ years <-> year ∈ years') ->
  outcome (get_file_path_array request loads years branch file_extensions) = Ok files ->
  get_file_path_array request loads years' branch file_extensions
  = get_file_path_array request loads years branch file_extensions.
Proof.
  intros Hsame H.
  apply get_file_path_array_ok_inv in H
    as (resp & listing & entries & ints & lo & hi & Hreq & Hst & Hl & He & Hf & Hi & Hlo & Hhi
        & ->).
  rewrite (get_file_path_array_run _ _ _ _ _ _ Hreq), Hst. cbn [Z.eqb Pos.eqb].
  destruct (YearConversion.mapM_year_int_ok _ _ Hi) as [Hyears Hlen].
  assert (Hyears' : Forall (fun year => exists n, year_int year = Ok n) years').
  { rewrite Forall_forall in Hyears. apply Forall_forall. intros y Hy.
    apply Hyears, Hsame, Hy. }
  destruct (YearConversion.mapM_year_int_all _ Hyears') as (ints' & Hi' & Hlen').
  assert (Hints : forall n, n ∈ ints <-> n ∈ ints').
  { intros n. rewrite (mapM_year_int_elements _ _ Hi n), (mapM_year_int_elements _ _ Hi' n).
    split; intros (y & Hy & Hn); exists y; (split; [apply Hsame|]; assumption). }
  assert (Hne : ints' <> []).
  { destruct (py_min_spec _ _ Hlo) as [Hin _]. apply Hints in Hin.
    intros ->. inversion Hin. }
  destruct (YearConversion.py_min_ok _ Hne) as [lo' Hlo'].
  destruct (YearConversion.py_max_ok _ Hne) as [hi' Hhi'].
  destruct (py_min_spec _ _ Hlo) as [Ha Hb]. destruct (py_min_spec _ _ Hlo') as [Ha' Hb'].
  destruct (py_max_spec _ _ Hhi) as [Hc Hd]. destruct (py_max_spec _ _ Hhi') as [Hc' Hd'].
  rewrite Forall_forall in Hb, Hb', Hd, Hd'.
  assert (lo' = lo).
  { apply Z.le_antisymm; [apply Hb', Hints, Ha | apply Hb, Hints, Ha']. }
  assert (hi' = hi).
  { apply Z.le_antisymm; [apply Hd, Hints, Hc' | apply Hd', Hints, Hc]. }
  subst lo' hi'.
  assert (Hres : listing_result loads years' (normalized_extensions file_extensions)
                   (content resp) = Ok (files, lo, hi)).
  { apply listing_result_ok. exists listing, entries, ints'.
    repeat split; try assumption.
    rewrite <- Hf. apply filter_files_same_matches. intros text.
    apply existsb_same_elements. intros y. symmetry. apply Hsame. }
  rewrite Hres. reflexivity.
Qed.

Lemma get_file_path_array_years_as_set_witness :
  get_file_path_array (Fixtures.answer 200 "listing") Fixtures.loads
    [YInt 2020; YInt 2019; YInt 2020] "master" (ExtStr ".parquet")
  = get_file_path_array (Fixtures.answer 200 "listing") Fixtures.loads
      [YInt 2019; YInt 2020] "master" (ExtStr ".parquet").
Proof.
  apply (get_file_path_array_years_as_set (Fixtures.answer 200 "listing") Fixtures.loads
           [YInt 2019; YInt 2020] [YInt 2020; YInt 2019; YInt 2020] "master"
           (ExtStr ".parquet")
           [JStr "https://raw.example/pbp_2019.parquet";
            JStr "https://raw.example/pbp_2020.parquet"]).
  - intros year. rewrite !elem_of_cons, !elem_of_nil. tauto.
  - reflexivity.
Defined.

Lemma split_pieces_free (c : ascii) (s : string) :
  Forall (fun piece => PyStr.has_char c piece = false) (PyStr.split c s).
Proof.
  induction s as [|x s IH]; [repeat constructor|]. cbn [PyStr.split].
  destruct (decide (x = c)) as [->|Hx]; [constructor; [reflexivity | exact IH]|].
  destruct (PyStr.split c s) as [|h t]; [repeat constructor|].
  - cbn. destruct (decide (x = c)); [contradiction | reflexivity].
  - apply Forall_cons_1 in IH as [Hh Ht]. constructor; [|exact Ht].
    cbn. destruct (decide (x = c)); [contradiction | exact Hh].
Qed.

(** Every element of a suffix chain is a dot followed by a text without a
    dot. *)
Lemma suffix_chain_shape (name : string) :
  Forall (fun ext => is_suffix_text ext = true) (suffix_chain name).
Proof.
  unfold suffix_chain, PurePath.suffixes.
  destruct (PyStr.endswith_char _ _); [constructor|].
  apply Forall_fmap.
  pose proof (split_pieces_free "." (PyStr.lstrip "." (PurePath.name (PurePath.parse_parts name))))
    as H.
  destruct (PyStr.split _ _) as [|h t]; [constructor|].
  apply Forall_cons_1 in H as [_ Ht]. cbn [List.tl].
  apply (Forall_impl _ _ _ Ht). intros piece Hp.
  change (is_suffix_text (String "." piece) = true). cbn [is_suffix_text].
  rewrite Hp, bool_decide_eq_true_2 by reflexivity. reflexivity.
Qed.

(** X9: an extension filter with an element that is not a dot followed by
    a dot-free text ([parquet] without its dot, or [.tar.gz] in one piece)
    matches no file name at all: the call then returns the empty list
    whenever it returns. *)
Theorem get_file_path_array_malformed_extension
    (request : Request -> option Response) (loads : string -> option json)
    (years : list Year) (branch : string) (file_extensions : ExtArg) (ext : string) :
  ext ∈ normalized_extensions file_extensions -> is_suffix_text ext = false ->
  (forall name, name_matches years (normalized_extensions file_extensions) name = false)
  /\ ((exists e, outcome (get_file_path_array request loads years branch file_extensions)
                 = Raise e)
      \/ outcome (get_file_path_array request loads years branch file_extensions) = Ok []).
Proof.
  intros Hin Hbad.
  assert (Hnone : forall name,
             name_matches years (normalized_extensions file_extensions) name = false).
  { intros name. unfold name_matches. rewrite bool_decide_eq_false_2; [reflexivity|].
    intros Heq. pose proof (suffix_chain_shape name) as Hshape.
    rewrite Heq, Forall_forall in Hshape. rewrite (Hshape ext Hin) in Hbad. discriminate. }
  split; [exact Hnone|].
  destruct (outcome (get_file_path_array request loads years branch file_extensions))
    as [files|e] eqn:Hrun; [right | left; eauto].
  apply get_file_path_array_ok_inv in Hrun
    as (resp & listing & entries & ints & lo & hi & _ & _ & _ & _ & Hf & Hi & _).
  apply YearConversion.mapM_year_int_ok in Hi as [Hyears _].
  rewrite (filter_files_urls _ _ _ _ Hf Hyears). f_equal.
  clear Hf. induction entries as [|e entries IH]; [reflexivity|].
  cbn [List.filter]. unfold entry_matches at 1.
  destruct (entry_name e) as [name|]; cbn [from_option]; [rewrite Hnone|]; exact IH.
Qed.

Lemma get_file_path_array_malformed_extension_witness :
  (forall name, name_matches [YInt 2020] [".tar.gz"] name = false)
  /\ ((exists e, outcome (get_file_path_array (Fixtures.answer 200 "listing") Fixtures.loads
                            [YInt 2020] "master" (ExtStr ".tar.gz")) = Raise e)
      \/ outcome (get_file_path_array (Fixtures.answer 200 "listing") Fixtures.loads
                    [YInt 2020] "master" (ExtStr ".tar.gz")) = Ok []).
Proof.
  apply (get_file_path_array_malformed_extension (Fixtures.answer 200 "listing")
           Fixtures.loads [YInt 2020] "master" (ExtStr ".tar.gz") ".tar.gz").
  - left.
  - reflexivity.
Defined.

(** ** Years as integers and as texts *)









(** ** [prepare_cross_year_data]: the order of events *)

Lemma files_read_load_trace (file_paths : list string) (frames : list DataFrame) :
  length file_paths = length frames ->
  files_read (load_trace file_paths frames) = file_paths.
Proof.
  revert frames. induction file_paths as [|url paths IH]; intros [|df frames] Hlen;
    try discriminate; [reflexivity|].
  unfold load_trace, files_read in *. cbn. f_equal. apply IH. simpl in Hlen. congruence.
Qed.

Lemma files_read_app (l1 l2 : list event) :
  files_read (l1 ++ l2) = files_read l1 ++ files_read l2.
Proof. apply omap_app. Qed.

Lemma load_files_first_failure (read_parquet : string -> option DataFrame)
    (before after : list string) (bad : string) (frames : list DataFrame) :
  Forall2 (fun url df => read_parquet url = Some df) before frames ->
  read_parquet bad = None ->
  forall list_of_df,
    load_files read_parquet (before ++ bad :: after) list_of_df
    = MkEff (load_trace before frames ++ [EvReadParquet bad]) (Raise ParquetError).
Proof.
  intros Hall Hbad. induction Hall as [|url df paths frames Hread _ IH]; intros acc.
  - cbn [app load_files]. unfold do_read_parquet. rewrite Hbad. reflexivity.
  - cbn [app load_files]. unfold do_read_parquet. rewrite Hread.
    unfold mbind at 1, eff_bind at 1. cbn [outcome trace of_option].
    unfold mbind at 1, eff_bind at 1. cbn [outcome trace logger_info emit].
    rewrite IH. reflexivity.
Qed.

(** X11: when a file cannot be loaded, [prepare_cross_year_data] raises at
    that file: the files before it have been read and logged, the files after
    it are never asked for, nothing is concatenated and no table comes back. *)
Theorem prepare_cross_year_data_stops_at_failure
    (read_parquet : string -> option DataFrame)
    (before after : list string) (bad : string) (frames : list DataFrame) :
  Forall2 (fun url df => read_parquet url = Some df) before frames ->
  read_parquet bad = None ->
  let run := prepare_cross_year_data read_parquet (before ++ bad :: after) in
  run = MkEff (load_trace before frames ++ [EvReadParquet bad]) (Raise ParquetError)
  /\ files_read (trace run) = before ++ [bad].
Proof.
  intros Hall Hbad. cbv zeta. unfold prepare_cross_year_data.
  rewrite (load_files_first_failure _ _ _ _ _ Hall Hbad []).
  split; [reflexivity|].
  unfold mbind, eff_bind. cbn [outcome trace].
  rewrite files_read_app, files_read_load_trace by (eapply Forall2_length; exact Hall).
  reflexivity.
Qed.

Lemma prepare_cross_year_data_stops_at_failure_witness :
  let run := prepare_cross_year_data Fixtures.read_parquet (["a"] ++ "missing" :: ["b"]) in
  run = MkEff (load_trace ["a"] [Fixtures.season_frame 2019 2] ++ [EvReadParquet "missing"])
          (Raise ParquetError)
  /\ files_read (trace run) = ["a"] ++ ["missing"].
Proof.
  apply (prepare_cross_year_data_stops_at_failure Fixtures.read_parquet ["a"] ["b"] "missing"
           [Fixtures.season_frame 2019 2]).
  - repeat constructor.
  - reflexivity.
Defined.

Lemma prepare_cross_year_data_loaded (read_parquet : string -> option DataFrame)
    (url : string) (file_paths : list string) (d : DataFrame) (frames : list DataFrame) :
  Forall2 (fun url df => read_parquet url = Some df) (url :: file_paths) (d :: frames) ->
  exists concat_df,
    concat (d :: frames) = Ok concat_df
    /\ df_values concat_df = mjoin (df_values <$> d :: frames)
    /\ df_len concat_df = sum_list (df_len <$> d :: frames)
    /\ prepare_cross_year_data read_parquet (url :: file_paths)
       = MkEff (load_trace (url :: file_paths) (d :: frames)
                ++ [EvLog (LogFinal (df_len concat_df))]) (Ok concat_df).
Proof.
  intros Hall. destruct (concat_frames d frames) as (df & Hc & Hv & _).
  exists df. split; [exact Hc|]. split; [exact Hv|]. split.
  - rewrite <- df_values_length, Hv, length_join. apply sum_values_length.
  - unfold prepare_cross_year_data.
    rewrite (load_files_all_read _ _ _ Hall []). cbn [app].
    unfold mbind at 1, eff_bind at 1. cbn [outcome trace].
    rewrite Hc. unfold lift, mbind, eff_bind, logger_info, emit. cbn [outcome trace app].
    reflexivity.
Qed.

(** X12: when every file of a non-empty [file_paths] loads, the run is:
    each file read and then logged with its own row count, one file after
    the other in the order given, and at the end one line with the total;
    every file is asked for exactly once. *)
Theorem prepare_cross_year_data_events
    (read_parquet : string -> option DataFrame)
    (file_paths : list string) (frames : list DataFrame) :
  file_paths <> [] ->
  Forall2 (fun url df => read_parquet url = Some df) file_paths frames ->
  let run := prepare_cross_year_data read_parquet file_paths in
  trace run = load_trace file_paths frames
              ++ [EvLog (LogFinal (sum_list (df_len <$> frames)))]
  /\ files_read (trace run) = file_paths.
Proof.
  intros Hne Hall. cbv zeta.
  destruct Hall as [|url d paths frames Hread Hrest]; [congruence|].
  destruct (prepare_cross_year_data_loaded read_parquet url paths d frames)
    as (df & _ & _ & Hlen & ->); [constructor; assumption|].
  cbn [trace]. rewrite Hlen. split; [reflexivity|].
  rewrite files_read_app, files_read_load_trace.
  - cbn. rewrite app_nil_r. reflexivity.
  - cbn. f_equal. eapply Forall2_length. exact Hrest.
Qed.

Lemma prepare_cross_year_data_events_witness :
  let run := prepare_cross_year_data Fixtures.read_parquet ["a"; "b"] in
  trace run
  = load_trace ["a"; "b"] [Fixtures.season_frame 2019 2; Fixtures.season_frame 2020 3]
    ++ [EvLog (LogFinal (sum_list (df_len <$> [Fixtures.season_frame 2019 2;
                                               Fixtures.season_frame 2020 3])))]
  /\ files_read (trace run) = ["a"; "b"].
Proof.
  apply (prepare_cross_year_data_events Fixtures.read_parquet ["a"; "b"]
           [Fixtures.season_frame 2019 2; Fixtures.season_frame 2020 3]).
  - discriminate.
  - repeat constructor.
Defined.

Example prepare_cross_year_data_events_example :
  trace (prepare_cross_year_data Fixtures.read_parquet ["a"; "b"])
  = [EvReadParquet "a"; EvLog (LogLoadingRows 2 "a");
     EvReadParquet "b"; EvLog (LogLoadingRows 3 "b"); EvLog (LogFinal 5)].
Proof. reflexivity. Qed.

(** X13: loading two non-empty batches separately and putting the second
    table under the first gives the rows of loading them in one go; the
    index is not kept: the table of the second batch is numbered from zero,
    the table of the single run is numbered through. *)
Theorem prepare_cross_year_data_batches
    (read_parquet : string -> option DataFrame)
    (paths1 paths2 : list string) (frames1 frames2 : list DataFrame) :
  paths1 <> [] -> paths2 <> [] ->
  Forall2 (fun url df => read_parquet url = Some df) paths1 frames1 ->
  Forall2 (fun url df => read_parquet url = Some df) paths2 frames2 ->
  exists df df1 df2,
    outcome (prepare_cross_year_data read_parquet (paths1 ++ paths2)) = Ok df
    /\ outcome (prepare_cross_year_data read_parquet paths1) = Ok df1
    /\ outcome (prepare_cross_year_data read_parquet paths2) = Ok df2
    /\ df_values df = df_values df1 ++ df_values df2
    /\ df_len df = (df_len df1 + df_len df2)%nat
    /\ df_index df2 = Z.of_nat <$> seq 0 (df_len df2)
    /\ df_index df = Z.of_nat <$> seq 0 (df_len df1 + df_len df2).
Proof.
  intros Hne1 Hne2 H1 H2.
  assert (H12 : Forall2 (fun url df => read_parquet url = Some df)
                  (paths1 ++ paths2) (frames1 ++ frames2))
    by (apply Forall2_app; assumption).
  destruct H1 as [|u1 d1 p1 f1 Hr1 Hrest1]; [congruence|].
  destruct H2 as [|u2 d2 p2 f2 Hr2 Hrest2]; [congruence|].
  destruct (prepare_cross_year_data_loaded read_parquet u1 p1 d1 f1)
    as (df1 & Hc1 & Hv1 & Hl1 & E1); [constructor; assumption|].
  destruct (prepare_cross_year_data_loaded read_parquet u2 p2 d2 f2)
    as (df2 & Hc2 & Hv2 & Hl2 & E2); [constructor; assumption|].
  cbn [app] in H12.
  destruct (prepare_cross_year_data_loaded read_parquet u1 (p1 ++ u2 :: p2) d1 (f1 ++ d2 :: f2))
    as (df & Hc & Hv & Hl & E); [exact H12|].
  exists df, df1, df2. cbn [app]. rewrite E, E1, E2. cbn [outcome].
  assert (Hvals : df_values df = df_values df1 ++ df_values df2).
  { rewrite Hv, Hv1, Hv2.
    change (d1 :: f1 ++ d2 :: f2) with ((d1 :: f1) ++ d2 :: f2).
    rewrite fmap_app, join_app. reflexivity. }
  assert (Hlen : df_len df = (df_len df1 + df_len df2)%nat).
  { rewrite <- !df_values_length, Hvals, length_app. reflexivity. }
  split; [reflexivity|]. split; [reflexivity|]. split; [reflexivity|].
  split; [exact Hvals|]. split; [exact Hlen|]. split.
  - destruct (concat_frames d2 f2) as (x2 & Hx2 & Hw2 & Hi2).
    assert (x2 = df2) by congruence. subst.
    rewrite Hi2, <- Hw2, df_values_length. reflexivity.
  - destruct (concat_frames d1 (f1 ++ d2 :: f2)) as (x & Hx & Hw & Hi).
    assert (x = df) by congruence. subst.
    rewrite Hi, <- Hw, df_values_length, Hlen. reflexivity.
Qed.

Lemma prepare_cross_year_data_batches_witness :
  exists df df1 df2,
    outcome (prepare_cross_year_data Fixtures.read_parquet (["a"] ++ ["b"])) = Ok df
    /\ outcome (prepare_cross_year_data Fixtures.read_parquet ["a"]) = Ok df1
    /\ outcome (prepare_cross_year_data Fixtures.read_parquet ["b"]) = Ok df2
    /\ df_values df = df_values df1 ++ df_values df2
    /\ df_len df = (df_len df1 + df_len df2)%nat
    /\ df_index df2 = Z.of_nat <$> seq 0 (df_len df2)
    /\ df_index df = Z.of_nat <$> seq 0 (df_len df1 + df_len df2).
Proof.
  apply (prepare_cross_year_data_batches Fixtures.read_parquet ["a"] ["b"]
           [Fixtures.season_frame 2019 2] [Fixtures.season_frame 2020 3]);
    first [discriminate | repeat constructor].
Defined.

(** ** The script *)




Lemma introduce_repository_cases
    (request : Request -> option Response) (loads : string -> option json)
    (strptime : string -> option datetime) (utcnow : datetime) (branch : string) :
  (exists e, introduce_repository request loads strptime utcnow branch
             = MkEff [EvRequest (branches_request branch)] (Raise e))
  \/ (exists elapsed,
        introduce_repository request loads strptime utcnow branch
        = MkEff [EvRequest (branches_request branch);
                 EvLog (LogLoadingFrom "guga31bb" "nflfastR-data" branch);
                 EvLog (LogLastCommit elapsed)] (Ok tt)).
Proof.
  destruct (request (branches_request branch)) as [resp|] eqn:Hreq.
  - rewrite (introduce_repository_run _ _ _ _ _ _ Hreq).
    destruct (status_code resp =? 200); [|left; eauto].
    destruct (branch_result _ _ _ _); [right | left]; eauto.
  - rewrite (introduce_repository_no_response _ _ _ _ _ Hreq). left. eauto.
Qed.


(** X14: when the script's first step fails, whatever the reason (no
    answer, a status other than 200, a body it cannot use), the script ends
    with that error after its one request: the listing is never asked for
    and no file is read. *)
Theorem main_stops_at_first_failure
    (request : Request -> option Response) (loads : string -> option json)
    (strptime : string -> option datetime) (utcnow : datetime)
    (read_parquet : string -> option DataFrame) (e : exn) :
  outcome (introduce_repository request loads strptime utcnow "master") = Raise e ->
  main request loads strptime utcnow read_parquet
  = MkEff [EvRequest (branches_request "master")] (Raise e).
Proof.
  intros H. unfold main. cbv zeta. unfold script_branch.
  destruct (introduce_repository_cases request loads strptime utcnow "master")
    as [[e' Hrun]|[elapsed Hrun]]; rewrite Hrun in *; [|discriminate].
  inversion H. reflexivity.
Qed.

Lemma main_stops_at_first_failure_witness :
  main (Fixtures.answer 403 "rate limit") Fixtures.loads Fixtures.strptime Fixtures.utcnow
    Fixtures.read_parquet
  = MkEff [EvRequest (branches_request "master")] (Raise AssertionError).
Proof.
  apply (main_stops_at_first_failure (Fixtures.answer 403 "rate limit") Fixtures.loads
           Fixtures.strptime Fixtures.utcnow Fixtures.read_parquet AssertionError).
  reflexivity.
Defined.

(** X15: when the first step passes and the listing holds no parquet file
    of the years 2010 to 2020, the script does not end with an empty table:
    it raises the error of concatenating nothing, after its two requests and
    without reading any file. *)
Theorem main_without_files
    (request : Request -> option Response) (loads : string -> option json)
    (strptime : string -> option datetime) (utcnow : datetime)
    (read_parquet : string -> option DataFrame) :
  outcome (introduce_repository request loads strptime utcnow "master") = Ok tt ->
  outcome (get_file_path_array request loads (YInt <$> py_range 2010 2021) "master"
             (ExtStr ".parquet")) = Ok [] ->
  let run := main request loads strptime utcnow read_parquet in
  outcome run = Raise (ValueError "No objects to concatenate")
  /\ requests_sent (trace run) = [branches_request "master"; contents_request "master"]
  /\ files_read (trace run) = [].
Proof.
  intros Hintro Hget. cbv zeta. unfold main. cbv zeta.
  unfold script_branch, start_year, end_year, default_file_extensions.
  change (2020 + 1) with 2021.
  destruct (introduce_repository_cases request loads strptime utcnow "master")
    as [[e' Hrun]|[elapsed Hrun]]; rewrite Hrun in *; [discriminate|].
  apply get_file_path_array_ok_inv in Hget
    as (resp & listing & entries & ints & lo & hi & _ & _ & _ & _ & _ & _ & _ & _ & ->).
  repeat split.
Qed.

Lemma main_without_files_witness :
  let run := main (Worlds.github "[]") Fixtures.loads Fixtures.strptime Fixtures.utcnow
               Fixtures.read_parquet in
  outcome run = Raise (ValueError "No objects to concatenate")
  /\ requests_sent (trace run) = [branches_request "master"; contents_request "master"]
  /\ files_read (trace run) = [].
Proof.
  apply (main_without_files (Worlds.github "[]") Fixtures.loads Fixtures.strptime
           Fixtures.utcnow Fixtures.read_parquet); reflexivity.
Defined.


